(** * jcvi.apps.grid: submission of jobs to a grid engine

    A shallow embedding of [apps/grid.py] (classes [GridProcess] and [Grid],
    actions [run] and [array]) together with the properties of the command
    builder, the job launcher, the job batch and the template expander.

    Python values are modelled as follows.
    - [str] is [string] (byte strings, as in the Python 2 the module is
      written for); the string methods used by the module are in [Py].
    - Attributes that may be [None] are [option]s; Python truthiness ([if x:]) is
      made explicit by [Py.nonempty] and [Py.nonzero].
    - Exceptions are values of [exn]; code that mutates an object or performs
      I/O lives in the state-and-exception monad [M].
    - The scheduler is outside the program: what [popen(cmd).read()] returns
      is given by an oracle, and every effect on the outside world
      (submissions, backups, log lines, files written) is recorded in
      [World]. *)

From Stdlib Require Import ZArith String Ascii List Bool Lia DecimalString.
Import ListNotations.
Open Scope string_scope.
Open Scope bool_scope.

(* ================================================================= *)
(** * Part I. The embedding *)
(* ================================================================= *)

(** ** Python string methods *)

Module Py.

(** The double quote character (code 34). *)
Definition dquote : string := String "034"%char "".

(** The characters removed by [str.strip()] and excluded by [\S]:
    space, [\t], [\n], [\v], [\f], [\r]. *)
Definition is_space (c : ascii) : bool :=
  existsb (Ascii.eqb c) [" "; "009"; "010"; "011"; "012"; "013"]%char.

Definition is_digit (c : ascii) : bool :=
  existsb (Ascii.eqb c) ["0"; "1"; "2"; "3"; "4"; "5"; "6"; "7"; "8"; "9"]%char.

(** [s.startswith(p)] *)
Fixpoint startswith (p s : string) : bool :=
  match p, s with
  | "", _ => true
  | String _ _, "" => false
  | String a p', String b s' => Ascii.eqb a b && startswith p' s'
  end.

(** [s.endswith(p)] for a one-character [p]. *)
Fixpoint endswith_char (c : ascii) (s : string) : bool :=
  match s with
  | "" => false
  | String a "" => Ascii.eqb a c
  | String _ s' => endswith_char c s'
  end.

(** [sub in s] *)
Fixpoint contains (sub s : string) : bool :=
  match s with
  | "" => startswith sub ""
  | String _ s' => startswith sub s || contains sub s'
  end.

(** [s.replace(old, new)] for a non-empty [old]: the occurrences of [old]
    are found from the left and do not overlap.  [skip] counts the
    characters of a matched occurrence that are still to be stepped over. *)
Fixpoint replace_from (old new : string) (skip : nat) (s : string) : string :=
  match s with
  | "" => ""
  | String c s' =>
      match skip with
      | S k => replace_from old new k s'
      | O =>
          if startswith old s
          then new ++ replace_from old new (String.length old - 1) s'
          else String c (replace_from old new 0 s')
      end
  end.

(** [s.replace(old, new)]; with an empty [old] Python puts [new] before
    every character and at the end. *)
Definition replace (old new s : string) : string :=
  match old with
  | "" => new ++ String.concat "" (map (fun c => String c new) (list_ascii_of_string s))
  | String _ _ => replace_from old new 0 s
  end.

(** [s.lstrip()], [s.rstrip()], [s.strip()], and [s.rstrip(c)]. *)
Fixpoint lstrip_by (f : ascii -> bool) (s : string) : string :=
  match s with
  | "" => ""
  | String c s' => if f c then lstrip_by f s' else s
  end.

Fixpoint rstrip_by (f : ascii -> bool) (s : string) : string :=
  match s with
  | "" => ""
  | String c s' =>
      match rstrip_by f s' with
      | "" => if f c then "" else String c ""
      | r => String c r
      end
  end.

Definition strip (s : string) : string := lstrip_by is_space (rstrip_by is_space s).

(** Cutting at the first and at the last occurrence of a separator
    character: [Some (before, after)], or [None] when it does not occur. *)
Fixpoint cut_first (sep : ascii) (s : string) : option (string * string) :=
  match s with
  | "" => None
  | String c s' =>
      if Ascii.eqb c sep then Some ("", s')
      else match cut_first sep s' with
           | Some (h, t) => Some (String c h, t)
           | None => None
           end
  end.

Fixpoint cut_last (sep : ascii) (s : string) : option (string * string) :=
  match s with
  | "" => None
  | String c s' =>
      match cut_last sep s' with
      | Some (h, t) => Some (String c h, t)
      | None => if Ascii.eqb c sep then Some ("", s') else None
      end
  end.

(** [s.split(sep)[0]] *)
Definition split_0 (sep : ascii) (s : string) : string :=
  match cut_first sep s with Some (h, _) => h | None => s end.

(** [s.rsplit(sep, 1)[0]] *)
Definition rsplit1_0 (sep : ascii) (s : string) : string :=
  match cut_last sep s with Some (h, _) => h | None => s end.

(** [s.split(sep)] for a one-character [sep]: the pieces between the
    separators, empty ones included. *)
Fixpoint split (sep : ascii) (s : string) : list string :=
  match s with
  | "" => [""]
  | String c s' =>
      if Ascii.eqb c sep then "" :: split sep s'
      else match split sep s' with
           | h :: t => String c h :: t
           | [] => [String c ""]
           end
  end.

(** [str(n)] and ["{0}".format(n)] for an integer. *)
Definition str (n : Z) : string := NilEmpty.string_of_int (Z.to_int n).

(** Truthiness of an optional string and of an optional integer: the
    payload when [if x:] takes the branch. *)
Definition nonempty (x : option string) : option string :=
  match x with
  | Some "" => None
  | other => other
  end.

Definition nonzero (x : option Z) : option Z :=
  match x with
  | Some 0%Z => None
  | other => other
  end.

Definition truthy {A} (x : option A) : bool :=
  match x with Some _ => true | None => false end.

(** [a == b] on optional strings. *)
Definition eq_opt (a b : option string) : bool :=
  match a, b with
  | Some x, Some y => String.eqb x y
  | None, None => true
  | _, _ => false
  end.

End Py.

(** ** [os.path] on a POSIX system *)

Module posixpath.

Definition all_sep (s : string) : bool :=
  forallb (Ascii.eqb "/"%char) (list_ascii_of_string s).

(** [op.split(p)]: the tail is what follows the last slash; the head is
    what precedes it, without its trailing slashes unless it is the root. *)
Definition split (p : string) : string * string :=
  let '(head, tail) :=
    match Py.cut_last "/" p with
    | Some (h, t) => (h ++ "/", t)
    | None => ("", p)
    end in
  let head :=
    match head with
    | "" => head
    | _ => if all_sep head then head else Py.rstrip_by (Ascii.eqb "/"%char) head
    end in
  (head, tail).

(** [op.join(a, b)] *)
Definition join (a b : string) : string :=
  if Py.startswith "/" b then b
  else match a with
       | "" => b
       | _ => if Py.endswith_char "/" a then a ++ b else a ++ "/" ++ b
       end.

End posixpath.

(** ** The fragment of [re] used by the module

    Both patterns are a literal text, one group named [id] that is a
    starred character class, and a literal text.  The star is greedy and
    backtracks. *)

Module re.

Inductive charclass : Type :=
| Digit      (* the class 0-9 *)
| NonSpace.  (* the class \S *)

Inductive item : Type :=
| Lit (c : ascii)
| GroupStar (cls : charclass).   (* the group id: cls, starred *)

Definition pattern : Type := list item.

Definition in_class (cls : charclass) (c : ascii) : bool :=
  match cls with
  | Digit => Py.is_digit c
  | NonSpace => negb (Py.is_space c)
  end.

Definition lits (s : string) : pattern := map Lit (list_ascii_of_string s).

(** Matching anchored at the start of [s]; the result is the text of the
    group [id] (empty when the pattern has no group). *)
Fixpoint match_here (p : pattern) (s : string) {struct p} : option string :=
  match p with
  | [] => Some ""
  | Lit c :: p' =>
      match s with
      | String a s' => if Ascii.eqb a c then match_here p' s' else None
      | "" => None
      end
  | GroupStar cls :: p' =>
      (fix star (s : string) : option string :=
         let stop := match match_here p' s with Some _ => Some "" | None => None end in
         match s with
         | String a s' =>
             if in_class cls a
             then match star s' with
                  | Some g => Some (String a g)
                  | None => stop
                  end
             else stop
         | "" => stop
         end) s
  end.

(** [re.search(p, s)]: the leftmost position where [p] matches;
    the result stands for the match object, reduced to [group("id")]. *)
Fixpoint search (p : pattern) (s : string) : option string :=
  match match_here p s with
  | Some g => Some g
  | None =>
      match s with
      | String _ s' => search p s'
      | "" => None
      end
  end.

End re.

(** ** Exceptions, state and the outside world *)

Inductive exn : Type :=
| AssertionError (msg : string)
| AttributeError (msg : string).

Inductive outcome (A : Type) : Type :=
| Returned (a : A)
| Raised (e : exn).
Arguments Returned {A} a.
Arguments Raised {A} e.

(** A computation over a mutable state [S] that returns or raises. *)
Definition M (S A : Type) : Type := S -> S * outcome A.

Definition ret {S A} (a : A) : M S A := fun s => (s, Returned a).
Definition raise {S A} (e : exn) : M S A := fun s => (s, Raised e).
Definition bind {S A B} (m : M S A) (k : A -> M S B) : M S B :=
  fun s => match m s with
           | (s', Returned a) => k a s'
           | (s', Raised e) => (s', Raised e)
           end.
Definition get {S} : M S S := fun s => (s, Returned s).
Definition modify {S} (f : S -> S) : M S unit := fun s => (f s, Returned tt).

Declare Scope monad_scope.
Delimit Scope monad_scope with monad.
Notation "x <- m ;; k" := (bind m (fun x => k))
  (at level 61, m at next level, right associativity) : monad_scope.
Notation "m ;; k" := (bind m (fun _ => k))
  (at level 61, right associativity) : monad_scope.
Open Scope monad_scope.

(** [assert b] and [assert b, msg] *)
Definition assert_ {S} (b : bool) (msg : string) : M S unit :=
  if b then ret tt else raise (AssertionError msg).

(** Run a computation on one component of a pair of states. *)
Definition on_fst {S T A} (m : M S A) : M (S * T) A :=
  fun st => let '(s', r) := m (fst st) in ((s', snd st), r).
Definition on_snd {S T A} (m : M T A) : M (S * T) A :=
  fun st => let '(t', r) := m (snd st) in ((fst st, t'), r).

(** What the program does to its environment, oldest first. *)
Record World : Type := mkWorld {
  submitted : list string;              (* command lines given to popen *)
  backed_up : list string;              (* paths given to backup *)
  debug_log : list string;              (* messages given to logging.debug *)
  written : list (string * string)      (* (path, contents) given to write_file *)
}.

Definition World0 : World := mkWorld [] [] [] [].

Definition backup (path : string) : M World unit :=
  modify (fun w => mkWorld (submitted w) (backed_up w ++ [path]) (debug_log w) (written w)).

Definition logging_debug (msg : string) : M World unit :=
  modify (fun w => mkWorld (submitted w) (backed_up w) (debug_log w ++ [msg]) (written w)).

Definition write_file (path contents : string) : M World unit :=
  modify (fun w => mkWorld (submitted w) (backed_up w) (debug_log w) (written w ++ [(path, contents)])).

(** ** class GridProcess *)

(** Project code, JCVI specific. *)
Definition PCODE : string := "04048".

Record GridProcess : Type := mkGridProcess {
  cmd : string;
  jobid : string;
  queue : string;
  threaded : option Z;
  infile : option string;
  outfile : option string;
  errfile : option string;
  arr : option Z;
  pat : re.pattern
}.

(** [pat1] reads [Your job ], then the group [id] made of digits, then a
    space; [pat2] reads [Your job-array ], then the group [id] made of
    characters that are not white space, then a space. *)
Definition pat1 : re.pattern :=
  (re.lits "Your job " ++ [re.GroupStar re.Digit] ++ re.lits " ")%list.
Definition pat2 : re.pattern :=
  (re.lits "Your job-array " ++ [re.GroupStar re.NonSpace] ++ re.lits " ")%list.

(** [GridProcess.__init__]; the defaults of the source are [jobid = ""],
    [queue = "default"] and [None] for the rest. *)
Definition GridProcess_init (cmd jobid queue : string) (threaded : option Z)
    (infile outfile errfile : option string) (arr : option Z) : GridProcess :=
  mkGridProcess cmd jobid queue threaded infile outfile errfile arr
    (if Py.truthy (Py.nonzero arr) then pat2 else pat1).

Definition set_cmd (c : string) (self : GridProcess) : GridProcess :=
  mkGridProcess c (jobid self) (queue self) (threaded self) (infile self)
    (outfile self) (errfile self) (arr self) (pat self).

Definition set_jobid (j : string) (self : GridProcess) : GridProcess :=
  mkGridProcess (cmd self) j (queue self) (threaded self) (infile self)
    (outfile self) (errfile self) (arr self) (pat self).

(** The elements kept by a generator with [if x]. *)
Definition opt_list_str (x : option string) : list string :=
  match x with Some a => [a] | None => [] end.

(** The test that opens [build]: the command needs a shell. *)
Definition shell_command (c : string) : bool :=
  Py.contains "|" c || Py.contains "&&" c || Py.contains "||" c.

(** [GridProcess.build]: wraps [self.cmd] in place, then assembles the
    [qsub] line. *)
Definition build : M GridProcess string :=
  self <- get ;;
  (if shell_command (cmd self) then
     let quote := if Py.contains "'" (cmd self) then Py.dquote else "'" in
     modify (set_cmd ("sh -c " ++ quote ++ cmd self ++ quote))
   else ret tt) ;;
  self <- get ;;
  let qsub := "qsub -P " ++ PCODE ++ " -cwd" in
  let qsub := if negb (String.eqb (queue self) "default")
              then qsub ++ " -l " ++ queue self else qsub in
  let qsub := match Py.nonzero (threaded self) with
              | Some t => qsub ++ " -pe threaded " ++ Py.str t
              | None => qsub
              end in
  qsub <- match Py.nonzero (arr self) with
          | Some a =>
              assert_ ((1 <? a)%Z && (a <? 100000)%Z) "" ;;
              ret (qsub ++ " -t 1-" ++ Py.str a)
          | None => ret qsub
          end ;;
  let redirect_same :=
    Py.truthy (Py.nonempty (outfile self)) && Py.eq_opt (outfile self) (errfile self) in
  let qsub := match Py.nonempty (infile self) with
              | Some f => qsub ++ " -i " ++ f
              | None => qsub
              end in
  let qsub := if redirect_same then qsub ++ " -j y" else qsub in
  let qsub := match Py.nonempty (outfile self) with
              | Some f => qsub ++ " -o " ++ f
              | None => qsub
              end in
  let qsub := match Py.nonempty (errfile self) with
              | Some f => if negb redirect_same then qsub ++ " -e " ++ f else qsub
              | None => qsub
              end in
  ret (String.concat " " [qsub; cmd self]).

(** [GridProcess.__str__]: the job identifier, the command and the output
    file that are not empty, separated by tabs. *)
Definition GridProcess_str (self : GridProcess) : string :=
  let tab := String "009"%char "" in
  String.concat tab
    (opt_list_str (Py.nonempty (Some (jobid self)))
     ++ opt_list_str (Py.nonempty (Some (cmd self)))
     ++ opt_list_str (Py.nonempty (outfile self)))%list.

Section Scheduler.

(** What the submission tool prints, given the command lines submitted so
    far and the one submitted now. *)
Variable popen_read : list string -> string -> string.

Definition popen (c : string) : M World string :=
  fun w => (mkWorld (submitted w ++ [c]) (backed_up w) (debug_log w) (written w),
            Returned (popen_read (submitted w) c)).

(** [GridProcess.start] *)
Definition start : M (GridProcess * World) unit :=
  c <- on_fst build ;;
  output <- on_snd (popen c) ;;
  (if negb (String.eqb (Py.strip output) "") then
     self <- on_fst get ;;
     match re.search (pat self) output with
     | Some id => on_fst (modify (set_jobid id))
     | None => raise (AttributeError "'NoneType' object has no attribute 'group'")
     end
   else on_fst (modify (set_jobid "-1"))) ;;
  self <- on_fst get ;;
  let msg := "[" ++ jobid self ++ "] " ++ cmd self in
  let msg := match Py.nonempty (infile self) with
             | Some f => msg ++ " < " ++ f ++ " "
             | None => msg
             end in
  msg <- match Py.nonempty (outfile self) with
         | Some f => on_snd (backup f) ;; ret (msg ++ " > " ++ f ++ " ")
         | None => ret msg
         end ;;
  msg <- match Py.nonempty (errfile self) with
         | Some f => on_snd (backup f) ;; ret (msg ++ " 2> " ++ f ++ " ")
         | None => ret msg
         end ;;
  on_snd (logging_debug msg).

(** ** class Grid (a list of GridProcess) *)

(** [zip(cmds, outfiles)] followed by the construction of the jobs. *)
Fixpoint Grid_fill (cmds : list string) (outfiles : list (option string))
  : list GridProcess :=
  match cmds, outfiles with
  | c :: cmds', o :: outfiles' =>
      GridProcess_init c "" "default" None None o None None :: Grid_fill cmds' outfiles'
  | _, _ => []
  end.

(** [Grid.__init__] *)
Definition Grid_init (cmds : list string) (outfiles : list (option string))
  : outcome (list GridProcess) :=
  match cmds with
  | [] => Raised (AssertionError "Commands empty!")
  | _ =>
      let outfiles := match outfiles with
                      | [] => repeat None (List.length cmds)
                      | _ => outfiles
                      end in
      Returned (Grid_fill cmds outfiles)
  end.

(** [Grid.run]: the jobs are started in list order; an exception leaves the
    loop.  (The working directory that the source reads first is not used.) *)
Fixpoint Grid_run (self : list GridProcess) (w : World)
  : (list GridProcess * World) * outcome unit :=
  match self with
  | [] => (([], w), Returned tt)
  | p :: rest =>
      match start (p, w) with
      | ((p', w'), Returned _) =>
          let '((rest', w''), r) := Grid_run rest w' in ((p' :: rest', w''), r)
      | ((p', w'), Raised e) => ((p' :: rest, w'), Raised e)
      end
  end.

(** Constructing a batch and running it, as a caller of the class does. *)
Definition Grid_submit (cmds : list string) (outfiles : list (option string))
  : M World (list GridProcess) :=
  fun w =>
    match Grid_init cmds outfiles with
    | Raised e => (w, Raised e)
    | Returned g =>
        match Grid_run g w with
        | ((g', w'), Returned _) => (w', Returned g')
        | ((_, w'), Raised e) => (w', Raised e)
        end
    end.

(** ** The actions [run] and [array] *)

(** The options installed by [set_grid_opts] that the actions read. *)
Record GridOpts : Type := mkGridOpts {
  opt_queue : string;
  opt_threaded : option Z
}.

(** Lines 237 to 240 of [run]: the input line goes where the braces are,
    or at the end. *)
Definition place_input (ncmd filename : string) : string :=
  if Py.contains "{" ncmd
  then Py.replace "{}" filename ncmd
  else ncmd ++ " " ++ filename.

(** Lines 230 to 247 of [run]: the command for the [i]-th input line
    [filename], already stripped. *)
Definition expand (cmd : string) (i : nat) (filename : string) : string :=
  let noextname := Py.rsplit1_0 "." filename in
  let '(prefix, basename) := posixpath.split filename in
  let basenoextname := Py.rsplit1_0 "." basename in
  let basefirstname := Py.split_0 "." basename in
  let firstname := posixpath.join prefix basefirstname in
  let ncmd := cmd in
  let ncmd := place_input ncmd filename in
  let ncmd := Py.replace "{.}" noextname ncmd in
  let ncmd := Py.replace "{_}" firstname ncmd in
  let ncmd := Py.replace "{/}" basename ncmd in
  let ncmd := Py.replace "{/.}" basenoextname ncmd in
  let ncmd := Py.replace "{/_}" basefirstname ncmd in
  let ncmd := Py.replace "{#}" (Py.str (Z.of_nat i)) ncmd in
  ncmd.

(** Lines 249 to 254: the text after the first [>] is the output file.
    The split yields two parts whenever [>] occurs, so the last branch is
    never taken. *)
Definition split_redirect (ncmd : string) : string * option string :=
  let '(ncmd, outfile) :=
    if Py.contains ">" ncmd then
      match Py.cut_first ">" ncmd with
      | Some (a, b) => (Py.strip a, Some (Py.strip b))
      | None => (ncmd, None)
      end
    else (ncmd, None) in
  (Py.strip ncmd, outfile).

(** The body of the loop of [run] up to the construction of the job. *)
Definition run_job (opts : GridOpts) (cmd : string) (i : nat) (filename : string)
  : GridProcess :=
  let filename := Py.strip filename in
  let '(ncmd, outfile) := split_redirect (expand cmd i filename) in
  GridProcess_init ncmd "" (opt_queue opts) (opt_threaded opts) None outfile None None.

(** [for i, filename in enumerate(filenames)], from index [i]. *)
Fixpoint run_loop (opts : GridOpts) (cmd : string) (i : nat) (filenames : list string)
  : M World unit :=
  match filenames with
  | [] => ret tt
  | filename :: rest =>
      fun w =>
        match start (run_job opts cmd i filename, w) with
        | ((_, w'), Returned _) => run_loop opts cmd (S i) rest w'
        | ((_, w'), Raised e) => (w', Raised e)
        end
  end.

(** [args[:sepidx]] and [args[sepidx + 1:]] for the first [sep] in [args]. *)
Fixpoint cut_args (sep : string) (args : list string) : option (list string * list string) :=
  match args with
  | [] => None
  | a :: args' =>
      if String.eqb a sep then Some ([], args')
      else match cut_args sep args' with
           | Some (before, after) => Some (a :: before, after)
           | None => None
           end
  end.

(** [run], after option parsing; [stdin] is the list of lines of the
    standard input. *)
Definition run (opts : GridOpts) (args : list string) (stdin : list string)
  : M World unit :=
  let sep := ":::" in
  let '(filenames, args) :=
    match cut_args sep args with
    | Some (before, after) =>
        (match after with [] => [""] | _ => after end, before)
    | None => (stdin, args)
    end in
  let cmd := String.concat " " args in
  run_loop opts cmd 0 filenames.

(** The wrapper script [arraysh], formatted with the name of the list of
    commands. *)
Definition arraysh (cmds : string) : string :=
  let nl := String "010"%char "" in
  "#!/bin/bash" ++ nl ++ nl ++
  "CMD=`awk " ++ Py.dquote ++ "NR==$SGE_TASK_ID" ++ Py.dquote ++ " " ++ cmds ++ "`" ++ nl ++
  "$CMD".

(** [array], after option parsing; [lines] are the lines of the file
    [cmds].  The job it started is returned so that it can be observed. *)
Definition array (opts : GridOpts) (cmds : string) (lines : list string)
  : M World GridProcess :=
  let ncmds := Z.of_nat (List.length lines) in
  let runfile := "array.sh" in
  write_file runfile (arraysh cmds) ;;
  let outfile := "\$TASK_ID.out" in
  let p := GridProcess_init runfile "" (opt_queue opts) (opt_threaded opts)
             None (Some outfile) (Some outfile) (Some ncmds) in
  fun w =>
    match start (p, w) with
    | ((p', w'), r) => (w', match r with Returned _ => Returned p' | Raised e => Raised e end)
    end.

End Scheduler.

(** ** Notions used to state the properties *)

(** [Replaced old new s t]: reading [s] from the left, [t] has [new]
    wherever [old] starts and the character of [s] elsewhere. *)
Inductive Replaced (old new : string) : string -> string -> Prop :=
| Replaced_end : Replaced old new "" ""
| Replaced_hit s t :
    Replaced old new s t -> Replaced old new (old ++ s) (new ++ t)
| Replaced_keep c s t :
    Py.startswith old (String c s) = false ->
    Replaced old new s t -> Replaced old new (String c s) (String c t).

(** The clauses that [build] appends to [qsub -P 04048 -cwd]. *)
Inductive clause : Type :=
| Resource (q : string)        (* -l q *)
| Parallel (t : Z)             (* -pe threaded t *)
| ArrayRange (a : Z)           (* -t 1-a *)
| Stdin (f : string)           (* -i f *)
| Combined                     (* -j y *)
| Stdout (f : string)          (* -o f *)
| Stderr (f : string).         (* -e f *)

Definition render (c : clause) : string :=
  match c with
  | Resource q => " -l " ++ q
  | Parallel t => " -pe threaded " ++ Py.str t
  | ArrayRange a => " -t 1-" ++ Py.str a
  | Stdin f => " -i " ++ f
  | Combined => " -j y"
  | Stdout f => " -o " ++ f
  | Stderr f => " -e " ++ f
  end.

Definition is_Combined (c : clause) : bool :=
  match c with Combined => true | _ => false end.
Definition is_Stdout (c : clause) : bool :=
  match c with Stdout _ => true | _ => false end.
Definition is_Stderr (c : clause) : bool :=
  match c with Stderr _ => true | _ => false end.
Definition is_ArrayRange (c : clause) : bool :=
  match c with ArrayRange _ => true | _ => false end.

Definition opt_list {A} (x : option A) : list A :=
  match x with Some a => [a] | None => [] end.

(** The clauses of a job, in the order in which [build] appends them. *)
Definition clauses (self : GridProcess) : list clause :=
  let redirect_same :=
    Py.truthy (Py.nonempty (outfile self)) && Py.eq_opt (outfile self) (errfile self) in
  ((if String.eqb (queue self) "default" then [] else [Resource (queue self)])
   ++ map Parallel (opt_list (Py.nonzero (threaded self)))
   ++ map ArrayRange (opt_list (Py.nonzero (arr self)))
   ++ map Stdin (opt_list (Py.nonempty (infile self)))
   ++ (if redirect_same then [Combined] else [])
   ++ map Stdout (opt_list (Py.nonempty (outfile self)))
   ++ (if redirect_same then [] else map Stderr (opt_list (Py.nonempty (errfile self)))))%list.

Definition qsub_flags (self : GridProcess) : string :=
  "qsub -P 04048 -cwd" ++ String.concat "" (map render (clauses self)).

(** The job after [build] has wrapped its command. *)
Definition wrapped (self : GridProcess) : GridProcess :=
  if shell_command (cmd self)
  then set_cmd ("sh -c " ++ (if Py.contains "'" (cmd self) then Py.dquote else "'")
                ++ cmd self ++ (if Py.contains "'" (cmd self) then Py.dquote else "'")) self
  else self.

(** The line that a successful [build] returns. *)
Definition qsub_line (self : GridProcess) : string :=
  qsub_flags self ++ " " ++ cmd (wrapped self).

(** The bound asserted on a truthy [arr]. *)
Definition arr_ok (a : option Z) : bool :=
  match Py.nonzero a with
  | Some n => (1 <? n)%Z && (n <? 100000)%Z
  | None => true
  end.

(** The jobs that the loop of [run] constructs for the input lines
    [filenames], the first of which has index [i]. *)
Fixpoint run_jobs (opts : GridOpts) (template : string) (i : nat)
    (filenames : list string) : list GridProcess :=
  match filenames with
  | [] => []
  | filename :: rest =>
      run_job opts template i filename :: run_jobs opts template (S i) rest
  end.

(** The world after one more submission. *)
Definition submit (line : string) (w : World) : World :=
  mkWorld (submitted w ++ [line]) (backed_up w) (debug_log w) (written w).

(** The world that [start] leaves when it returns with the identifier
    [id]: one more submission, the backups of the output file and of the
    error file, one more message. *)
Definition launched (self : GridProcess) (w : World) (id : string) : World :=
  mkWorld
    (submitted w ++ [qsub_line self])
    (backed_up w ++ opt_list (Py.nonempty (outfile self))
                 ++ opt_list (Py.nonempty (errfile self)))
    (debug_log w ++
       ["[" ++ id ++ "] " ++ cmd (wrapped self)
        ++ match Py.nonempty (infile self) with
           | Some f => " < " ++ f ++ " " | None => "" end
        ++ match Py.nonempty (outfile self) with
           | Some f => " > " ++ f ++ " " | None => "" end
        ++ match Py.nonempty (errfile self) with
           | Some f => " 2> " ++ f ++ " " | None => "" end])
    (written w).

(** A scheduler that always answers with the same text. *)
Definition answers (text : string) : list string -> string -> string :=
  fun _ _ => text.

(* ================================================================= *)
(** * Part II. Properties *)
(* ================================================================= *)

(** ** Strings *)

Section StringFacts.

Lemma append_empty_r (s : string) : s ++ "" = s.
Proof. induction s as [|c s IH]; simpl; [reflexivity | now rewrite IH]. Qed.

Lemma append_assoc (a b c : string) : (a ++ b) ++ c = a ++ (b ++ c).
Proof. induction a as [|x a IH]; simpl; [reflexivity | now rewrite IH]. Qed.

Lemma startswith_append (p s : string) : Py.startswith p (p ++ s) = true.
Proof.
  induction p as [|c p IH]; simpl; [reflexivity|].
  now rewrite Ascii.eqb_refl, IH.
Qed.

Lemma startswith_inv (p s : string) :
  Py.startswith p s = true -> exists r, s = p ++ r.
Proof.
  revert s; induction p as [|c p IH]; intros s H.
  - now exists s.
  - destruct s as [|a s]; simpl in H; [discriminate|].
    apply andb_true_iff in H as [Hc Hp].
    apply Ascii.eqb_eq in Hc; subst a.
    destruct (IH _ Hp) as [r ->]. now exists r.
Qed.

(** A one-character pattern occurs exactly when the cut succeeds. *)
Lemma contains_char_cut (c : ascii) (s : string) :
  Py.contains (String c "") s = true <-> exists h t, Py.cut_first c s = Some (h, t).
Proof.
  induction s as [|a s IH]; simpl.
  - split; [discriminate | intros (h & t & H); discriminate].
  - rewrite (Ascii.eqb_sym c a).
    destruct (Ascii.eqb a c) eqn:E; simpl.
    + split; [intros _; now exists "", s | reflexivity].
    + rewrite IH. split.
      * intros (h & t & ->). now exists (String a h), t.
      * intros (h & t & H). destruct (Py.cut_first c s) as [[h' t']|]; [|discriminate].
        now exists h', t'.
Qed.

(** The text before the cut does not contain the separator, and the cut
    loses nothing. *)
Lemma cut_first_spec (c : ascii) (s h t : string) :
  Py.cut_first c s = Some (h, t) ->
  s = h ++ String c t /\ Py.contains (String c "") h = false.
Proof.
  revert h t; induction s as [|a s IH]; intros h t H; simpl in H; [discriminate|].
  destruct (Ascii.eqb a c) eqn:E.
  - apply Ascii.eqb_eq in E; subst a. inversion H; subst. now split.
  - destruct (Py.cut_first c s) as [[h' t']|]; [|discriminate].
    inversion H; subst. destruct (IH _ _ eq_refl) as [-> Hh]. split; [reflexivity|].
    simpl. rewrite (Ascii.eqb_sym c a), E. simpl. exact Hh.
Qed.

Lemma contains_brace_pair (s : string) :
  Py.contains "{}" s = true -> Py.contains "{" s = true.
Proof.
  induction s as [|a s IH]; simpl; [discriminate|].
  intros H. apply orb_true_iff in H as [H|H].
  - destruct s as [|b s]; simpl in H.
    + now rewrite andb_false_r in H.
    + apply andb_true_iff in H as [-> _]. reflexivity.
  - rewrite (IH H). apply orb_true_r.
Qed.

(** *** [replace] *)

Lemma replace_from_skip (old new p r : string) :
  Py.replace_from old new (String.length p) (p ++ r) = Py.replace_from old new 0 r.
Proof.
  induction p as [|c p IH]; simpl; [|exact IH].
  destruct r; reflexivity.
Qed.

Lemma replace_from_hit (old new r : string) (c : ascii) (old' : string) :
  old = String c old' ->
  Py.replace_from old new 0 (old ++ r) = new ++ Py.replace_from old new 0 r.
Proof.
  intros ->. cbn [append Py.replace_from].
  change (String c (old' ++ r)) with (String c old' ++ r).
  rewrite startswith_append. cbn [String.length].
  replace (S (String.length old') - 1) with (String.length old') by lia.
  now rewrite replace_from_skip.
Qed.

Lemma replace_from_keep (old new s : string) (c : ascii) :
  Py.startswith old (String c s) = false ->
  Py.replace_from old new 0 (String c s) = String c (Py.replace_from old new 0 s).
Proof. intros H. cbn [Py.replace_from]. now rewrite H. Qed.

Lemma length_append (a b : string) :
  String.length (a ++ b) = String.length a + String.length b.
Proof. induction a as [|c a IH]; simpl; [reflexivity | now rewrite IH]. Qed.

Lemma replace_from_Replaced_bounded (old new : string) (n : nat) :
  old <> "" ->
  forall s, String.length s <= n -> Replaced old new s (Py.replace_from old new 0 s).
Proof.
  intros Hold. induction n as [|n IH]; intros s Hn.
  - destruct s; [constructor | simpl in Hn; lia].
  - destruct s as [|c s]; [constructor|].
    destruct (Py.startswith old (String c s)) eqn:E.
    + destruct (startswith_inv _ _ E) as [r Hr]. rewrite Hr.
      destruct old as [|a old']; [contradiction|].
      rewrite (replace_from_hit _ new r a old' eq_refl).
      apply Replaced_hit, IH.
      assert (L : String.length (String c s) = String.length (String a old' ++ r))
        by now rewrite Hr.
      rewrite length_append in L. simpl in L, Hn. lia.
    + rewrite (replace_from_keep _ _ _ _ E).
      apply Replaced_keep; [exact E|]. apply IH. simpl in Hn. lia.
Qed.

(** [replace] puts [new] in the place of every occurrence of a non-empty
    [old], from the left. *)
Lemma replace_Replaced (old new s : string) :
  old <> "" -> Replaced old new s (Py.replace old new s).
Proof.
  intros H. destruct old as [|c old']; [contradiction|].
  unfold Py.replace. now apply (replace_from_Replaced_bounded _ _ (String.length s)).
Qed.

(** Without an occurrence of [old] nothing changes. *)
Lemma replace_from_absent (old new s : string) :
  Py.contains old s = false -> Py.replace_from old new 0 s = s.
Proof.
  induction s as [|c s IH]; [reflexivity|].
  cbn [Py.contains]. intros H. apply orb_false_iff in H as [H1 H2].
  rewrite (replace_from_keep _ _ _ _ H1). now rewrite IH.
Qed.

Lemma append_inj_l (p a b : string) : p ++ a = p ++ b -> a = b.
Proof. induction p as [|c p IH]; simpl; intros H; [exact H | inversion H; auto]. Qed.

(** Reading a [Replaced] derivation by the shape of its source. *)
Lemma Replaced_inv (old new s t : string) :
  old <> "" ->
  Replaced old new s t ->
  match s with
  | "" => t = ""
  | String c s' =>
      if Py.startswith old s
      then exists r t', s = old ++ r /\ t = new ++ t' /\ Replaced old new r t'
      else exists t', t = String c t' /\ Replaced old new s' t'
  end.
Proof.
  intros Hold H. destruct H as [|r t' H|c s' t' Hc H].
  - reflexivity.
  - destruct old as [|a o]; [contradiction|].
    change (String a o ++ r) with (String a (o ++ r)).
    change (String a (o ++ r)) with (String a o ++ r) at 1 2.
    rewrite startswith_append. now exists r, t'.
  - rewrite Hc. now exists t'.
Qed.

(** [Replaced] determines its result. *)
Lemma Replaced_functional (old new s t1 t2 : string) :
  old <> "" -> Replaced old new s t1 -> Replaced old new s t2 -> t1 = t2.
Proof.
  intros Hold H1. revert t2.
  induction H1 as [|s t H IH|c s t Hc H IH]; intros t2 H2;
    apply (Replaced_inv _ _ _ _ Hold) in H2.
  - now symmetry.
  - destruct old as [|a o]; [contradiction|].
    change (String a o ++ s) with (String a (o ++ s)) in H2.
    change (String a (o ++ s)) with (String a o ++ s) in H2 at 1 2.
    rewrite startswith_append in H2.
    destruct H2 as (r & t' & Hr & -> & H2).
    apply (append_inj_l (String a o)) in Hr; subst r. f_equal. now apply IH.
  - rewrite Hc in H2. destruct H2 as (t' & -> & H2). f_equal. now apply IH.
Qed.

(** *** [strip] *)

Lemma rstrip_lstrip (f : ascii -> bool) (s : string) :
  Py.rstrip_by f (Py.lstrip_by f s) = Py.lstrip_by f (Py.rstrip_by f s).
Proof.
  induction s as [|c s IH]; [reflexivity|].
  cbn [Py.lstrip_by Py.rstrip_by].
  destruct (f c) eqn:E.
  - rewrite IH. destruct (Py.rstrip_by f s) eqn:R; [reflexivity|].
    cbn [Py.lstrip_by]. now rewrite E.
  - cbn [Py.rstrip_by].
    destruct (Py.rstrip_by f s) eqn:R; rewrite ?E; cbn [Py.lstrip_by]; now rewrite E.
Qed.

Lemma lstrip_idem (f : ascii -> bool) (s : string) :
  Py.lstrip_by f (Py.lstrip_by f s) = Py.lstrip_by f s.
Proof.
  induction s as [|c s IH]; [reflexivity|]. simpl.
  destruct (f c) eqn:E; [exact IH|]. simpl. now rewrite E.
Qed.

Lemma rstrip_idem (f : ascii -> bool) (s : string) :
  Py.rstrip_by f (Py.rstrip_by f s) = Py.rstrip_by f s.
Proof.
  induction s as [|c s IH]; [reflexivity|]. cbn [Py.rstrip_by].
  destruct (Py.rstrip_by f s) as [|d r] eqn:R.
  - destruct (f c) eqn:E; [reflexivity|]. simpl. now rewrite E.
  - cbn [Py.rstrip_by]. cbn [Py.rstrip_by] in IH. now rewrite IH.
Qed.

Lemma strip_idem (s : string) : Py.strip (Py.strip s) = Py.strip s.
Proof.
  unfold Py.strip.
  now rewrite (rstrip_lstrip _ (Py.rstrip_by _ s)), rstrip_idem, lstrip_idem.
Qed.

End StringFacts.

(** ** The command builder and the job launcher *)

Section BuildFacts.

Lemma wrapped_fields (self : GridProcess) :
  jobid (wrapped self) = jobid self /\ queue (wrapped self) = queue self /\
  threaded (wrapped self) = threaded self /\ infile (wrapped self) = infile self /\
  outfile (wrapped self) = outfile self /\ errfile (wrapped self) = errfile self /\
  arr (wrapped self) = arr self /\ pat (wrapped self) = pat self.
Proof. unfold wrapped. destruct (shell_command (cmd self)); simpl; repeat split. Qed.

(** [build] wraps the command, then either fails the assertion on [arr] or
    returns the flags followed by the command. *)
Lemma build_spec (self : GridProcess) :
  build self =
    (wrapped self,
     if arr_ok (arr self)
     then Returned (qsub_line self)
     else Raised (AssertionError "")).
Proof.
  destruct self as [c j q t i o e a p].
  unfold build, qsub_line, wrapped, qsub_flags, clauses, arr_ok, bind, get, modify, ret, assert_, raise.
  cbn [cmd jobid queue threaded infile outfile errfile arr pat].
  destruct (shell_command c); cbn [cmd jobid queue threaded infile outfile errfile arr pat set_cmd];
    destruct (String.eqb q "default");
    destruct (Py.nonzero t) as [t'|];
    destruct (Py.nonzero a) as [a'|];
    try destruct ((1 <? a')%Z && (a' <? 100000)%Z);
    destruct (Py.nonempty i) as [i'|];
    destruct (Py.nonempty o) as [o'|];
    destruct (Py.nonempty e) as [e'|];
    destruct (Py.eq_opt o e);
    cbv [ret PCODE];
    cbn [Py.truthy negb andb map opt_list app String.concat render set_cmd
         cmd jobid queue threaded infile outfile errfile arr pat];
    repeat (progress cbn [append] || rewrite append_assoc); reflexivity.
Qed.

End BuildFacts.

Section StartFacts.

Variable popen_read : list string -> string -> string.

(** The three ways in which [start] ends once the line is built. *)
Lemma start_spec (self : GridProcess) (w : World) :
  if arr_ok (arr self) then
    if String.eqb (Py.strip (popen_read (submitted w) (qsub_line self))) "" then
      exists w', start popen_read (self, w) = ((set_jobid "-1" (wrapped self), w'), Returned tt)
                 /\ submitted w' = (submitted w ++ [qsub_line self])%list
                 /\ debug_log w' <> debug_log w
    else
      match re.search (pat self) (popen_read (submitted w) (qsub_line self)) with
      | Some id =>
          exists w', start popen_read (self, w) = ((set_jobid id (wrapped self), w'), Returned tt)
                     /\ submitted w' = (submitted w ++ [qsub_line self])%list
                     /\ debug_log w' <> debug_log w
      | None =>
          start popen_read (self, w) =
            ((wrapped self, submit (qsub_line self) w),
             Raised (AttributeError "'NoneType' object has no attribute 'group'"))
      end
  else
    start popen_read (self, w) = ((wrapped self, w), Raised (AssertionError "")).
Proof.
  assert (Hlog : forall (l : list string) m, (l ++ [m])%list <> l).
  { intros l m H. apply (f_equal (@List.length _)) in H.
    rewrite length_app in H. simpl in H. lia. }
  unfold start, bind, on_fst, on_snd, popen.
  cbn [fst snd]. rewrite build_spec.
  destruct (arr_ok (arr self)); [|reflexivity].
  cbn [fst snd submitted].
  destruct (String.eqb (Py.strip _) ""); cbn [negb].
  - cbv [modify get ret backup logging_debug].
    cbn [fst snd set_jobid infile outfile errfile].
    destruct (wrapped_fields self) as (_ & _ & _ & Hi & Ho & He & _).
    rewrite ?Hi, ?Ho, ?He.
    destruct (Py.nonempty (infile self)), (Py.nonempty (outfile self)),
      (Py.nonempty (errfile self));
      cbn [fst snd infile outfile errfile set_jobid submitted backed_up debug_log written];
      eexists; (split; [reflexivity | split; [reflexivity | apply Hlog]]).
  - cbv [get]. cbn [fst snd].
    destruct (wrapped_fields self) as (_ & _ & _ & Hi & Ho & He & _ & ->).
    destruct (re.search (pat self) _) as [id|]; [|reflexivity].
    cbv [modify get ret backup logging_debug].
    cbn [fst snd set_jobid infile outfile errfile].
    rewrite ?Hi, ?Ho, ?He.
    destruct (Py.nonempty (infile self)), (Py.nonempty (outfile self)),
      (Py.nonempty (errfile self));
      cbn [fst snd infile outfile errfile set_jobid submitted backed_up debug_log written];
      eexists; (split; [reflexivity | split; [reflexivity | apply Hlog]]).
Qed.

End StartFacts.

(** ** The template expander: placing the input line *)

(** C1, as stated, does not hold: a template that has a brace but not the
    pair of braces (here it only uses the placeholder for the name without
    extension) gets nothing appended; the input line does not end the
    command that is launched. *)
Lemma place_input_not_appended :
  Py.contains "{}" "ls {.}" = false /\
  place_input "ls {.}" "a.txt" = "ls {.}" /\
  place_input "ls {.}" "a.txt" <> "ls {.}" ++ " " ++ "a.txt" /\
  cmd (run_job (mkGridOpts "default" None) "ls {.}" 0 "a.txt") = "ls a".
Proof. repeat split; try reflexivity. discriminate. Qed.

(** C1, amended: the test of [run] is on the opening brace.  A template
    with the pair of braces has a brace; in every template with a brace
    each occurrence of the pair is replaced by the input line and nothing
    is appended; a template without any brace gets the input line appended
    after one space. *)
Theorem place_input_by_brace (template filename : string) :
  (Py.contains "{}" template = true -> Py.contains "{" template = true) /\
  (Py.contains "{" template = true ->
     Replaced "{}" filename template (place_input template filename)) /\
  (Py.contains "{" template = true -> Py.contains "{}" template = false ->
     place_input template filename = template) /\
  (Py.contains "{" template = false ->
     place_input template filename = template ++ " " ++ filename).
Proof.
  unfold place_input. split; [apply contains_brace_pair|].
  split; [|split]; intros ->; [| |reflexivity].
  - apply replace_Replaced. discriminate.
  - apply replace_from_absent.
Qed.

Lemma place_input_by_brace_witness :
  Replaced "{}" "a.txt" "cp {} {}.bak" (place_input "cp {} {}.bak" "a.txt") /\
  place_input "ls {.}" "a.txt" = "ls {.}" /\
  place_input "ls -l" "a.txt" = "ls -l a.txt".
Proof.
  split; [|split].
  - apply (proj1 (proj2 (place_input_by_brace "cp {} {}.bak" "a.txt"))). reflexivity.
  - apply (proj1 (proj2 (proj2 (place_input_by_brace "ls {.}" "a.txt"))));
      reflexivity.
  - apply (proj2 (proj2 (proj2 (place_input_by_brace "ls -l" "a.txt")))). reflexivity.
Defined.

(** The first template of that example, evaluated. *)
Example place_input_example :
  place_input "cp {} {}.bak" "a.txt" = "cp a.txt a.txt.bak".
Proof. reflexivity. Qed.

(** ** The command builder: the array size *)

(** C2, as stated, does not hold at 0: an array size of 0 is outside the
    bounds, yet [build] returns a line (the one of [array] on an empty list
    of commands). *)
Lemma build_arr_zero_returns :
  let self := GridProcess_init "array.sh" "" "default" None None
                (Some "\$TASK_ID.out") (Some "\$TASK_ID.out") (Some 0%Z) in
  arr self = Some 0%Z /\ ~ (1 < 0 < 100000)%Z /\
  snd (build self) = Returned "qsub -P 04048 -cwd -j y -o \$TASK_ID.out array.sh".
Proof. cbv zeta. repeat split. lia. Qed.

(** C2, amended: for an array size that is set and out of bounds, [build]
    raises the assertion error when the size is not 0; a size of 0 counts
    as unset: [build] returns the line, which has no array clause. *)
Theorem build_arr_out_of_range (self : GridProcess) (a : Z) :
  arr self = Some a -> ~ (1 < a < 100000)%Z ->
  (a <> 0%Z ->
     build self = (wrapped self, Raised (AssertionError "")) /\
     forall popen_read w,
       start popen_read (self, w) = ((wrapped self, w), Raised (AssertionError ""))) /\
  (a = 0%Z -> build self = (wrapped self, Returned (qsub_line self))
              /\ existsb is_ArrayRange (clauses self) = false).
Proof.
  intros Ha Hr. split.
  - intros Hz.
    assert (Hbad : arr_ok (arr self) = false).
    { rewrite Ha. unfold arr_ok.
      destruct a as [|a|a]; [contradiction| |reflexivity]; cbn [Py.nonzero].
      destruct ((1 <? Z.pos a)%Z && (Z.pos a <? 100000)%Z) eqn:E; [|reflexivity].
      apply andb_true_iff in E as [E1 E2].
      apply Z.ltb_lt in E1, E2. lia. }
    split.
    + now rewrite build_spec, Hbad.
    + intros popen_read w. pose proof (start_spec popen_read self w) as H.
      now rewrite Hbad in H.
  - rewrite build_spec. unfold arr_ok, clauses. rewrite Ha.
    intros ->. cbn [Py.nonzero opt_list map]. split; [reflexivity|].
    rewrite !existsb_app.
    destruct (String.eqb (queue self) "default"), (Py.nonzero (threaded self)),
      (Py.nonempty (infile self)), (Py.nonempty (outfile self)),
      (Py.nonempty (errfile self)), (Py.eq_opt (outfile self) (errfile self));
      reflexivity.
Qed.

Lemma build_arr_out_of_range_witness :
  snd (build (GridProcess_init "array.sh" "" "default" None None None None (Some 1%Z)))
    = Raised (AssertionError "") /\
  snd (build (GridProcess_init "array.sh" "" "default" None None None None (Some 100000%Z)))
    = Raised (AssertionError "") /\
  snd (build (GridProcess_init "array.sh" "" "default" None None None None (Some 0%Z)))
    = Returned "qsub -P 04048 -cwd array.sh".
Proof.
  split; [|split].
  - rewrite (proj1 (proj1 (build_arr_out_of_range
               (GridProcess_init "array.sh" "" "default" None None None None (Some 1%Z))
               1%Z eq_refl ltac:(lia)) ltac:(discriminate))). reflexivity.
  - rewrite (proj1 (proj1 (build_arr_out_of_range
               (GridProcess_init "array.sh" "" "default" None None None None (Some 100000%Z))
               100000%Z eq_refl ltac:(lia)) ltac:(discriminate))). reflexivity.
  - rewrite (proj1 (proj2 (build_arr_out_of_range
               (GridProcess_init "array.sh" "" "default" None None None None (Some 0%Z))
               0%Z eq_refl ltac:(lia)) eq_refl)). reflexivity.
Defined.

(** The size 0 is what [array] passes for an empty list of commands: the
    wrapper script is then submitted as a single job. *)
Example array_empty_list :
  array (answers "Your job 8 (array.sh) has been submitted")
    (mkGridOpts "default" None) "commands.list" [] World0
  = (mkWorld ["qsub -P 04048 -cwd -j y -o \$TASK_ID.out array.sh"]
             ["\$TASK_ID.out"; "\$TASK_ID.out"]
             ["[8] array.sh > \$TASK_ID.out  2> \$TASK_ID.out "]
             [("array.sh", arraysh "commands.list")],
     Returned (mkGridProcess "array.sh" "8" "default" None None
                 (Some "\$TASK_ID.out") (Some "\$TASK_ID.out") (Some 0%Z) pat1)).
Proof. reflexivity. Qed.

(** ** The template expander: redirection *)

(** C3, as stated, does not hold: [run] gives the job its output file only;
    the error file stays unset, so the two differ and the line asks for no
    combined stream. *)
Lemma run_job_errfile_unset :
  let p := run_job (mkGridOpts "default" None) "zcat {} > {.}" 0 "x.gz" in
  Py.contains ">" (expand "zcat {} > {.}" 0 (Py.strip "x.gz")) = true /\
  cmd p = "zcat x.gz" /\ outfile p = Some "x" /\ errfile p = None /\
  errfile p <> outfile p /\
  snd (build p) = Returned "qsub -P 04048 -cwd -o x zcat x.gz".
Proof. cbv zeta. repeat split. discriminate. Qed.

(** C3, amended: when the expanded command has a redirection, the job
    that [run] launches has the trimmed text before the first [>] as its
    command, the trimmed text after it as its output file, and no error
    file. *)
Theorem run_job_redirect (opts : GridOpts) (template : string) (i : nat)
    (filename : string) :
  Py.contains ">" (expand template i (Py.strip filename)) = true ->
  exists a b,
    expand template i (Py.strip filename) = a ++ ">" ++ b /\
    Py.contains ">" a = false /\
    cmd (run_job opts template i filename) = Py.strip a /\
    outfile (run_job opts template i filename) = Some (Py.strip b) /\
    errfile (run_job opts template i filename) = None.
Proof.
  intros H. unfold run_job, split_redirect. rewrite H.
  destruct (proj1 (contains_char_cut _ _) H) as (a & b & Hcut).
  rewrite Hcut. exists a, b.
  destruct (cut_first_spec _ _ _ _ Hcut) as [Heq Hno].
  cbn [cmd outfile errfile GridProcess_init].
  repeat split; try assumption. apply strip_idem.
Qed.

Lemma run_job_redirect_witness :
  exists a b,
    expand "zcat {} > {.}" 0 (Py.strip "x.gz") = a ++ ">" ++ b /\
    Py.contains ">" a = false /\
    cmd (run_job (mkGridOpts "default" None) "zcat {} > {.}" 0 "x.gz") = Py.strip a /\
    outfile (run_job (mkGridOpts "default" None) "zcat {} > {.}" 0 "x.gz") = Some (Py.strip b) /\
    errfile (run_job (mkGridOpts "default" None) "zcat {} > {.}" 0 "x.gz") = None.
Proof.
  apply (run_job_redirect (mkGridOpts "default" None) "zcat {} > {.}" 0 "x.gz").
  reflexivity.
Defined.

(** ** The command builder: redirection clauses *)

Lemma concat_empty_app (l1 l2 : list string) :
  String.concat "" (l1 ++ l2) = String.concat "" l1 ++ String.concat "" l2.
Proof.
  induction l1 as [|x l1 IH]; [reflexivity|].
  cbn [app]. destruct l1 as [|y l1].
  - cbn [app String.concat]. destruct l2; cbn [String.concat append];
      [now rewrite append_empty_r | reflexivity].
  - cbn [app String.concat append] in *. now rewrite IH, append_assoc.
Qed.

(** C4: when the output file and the error file are the same non-empty
    path, the line that [build] returns ends with one combined-stream
    clause, one output clause and the command; the clauses before them are
    neither of these, and no error clause is emitted at all. *)
Theorem build_combined_once (self : GridProcess) (o : string) :
  outfile self = Some o -> errfile self = Some o -> o <> "" ->
  arr_ok (arr self) = true ->
  exists before,
    build self = (wrapped self, Returned (qsub_line self)) /\
    clauses self = (before ++ [Combined; Stdout o])%list /\
    qsub_line self =
      "qsub -P 04048 -cwd" ++ String.concat "" (map render before)
        ++ " -j y" ++ " -o " ++ o ++ " " ++ cmd (wrapped self) /\
    List.length (filter is_Combined (clauses self)) = 1 /\
    filter is_Stdout (clauses self) = [Stdout o] /\
    filter is_Stderr (clauses self) = [].
Proof.
  intros Ho He Hne Hok.
  exists ((if String.eqb (queue self) "default" then [] else [Resource (queue self)])
          ++ map Parallel (opt_list (Py.nonzero (threaded self)))
          ++ map ArrayRange (opt_list (Py.nonzero (arr self)))
          ++ map Stdin (opt_list (Py.nonempty (infile self))))%list.
  assert (Hcl : clauses self =
    (((if String.eqb (queue self) "default" then [] else [Resource (queue self)])
      ++ map Parallel (opt_list (Py.nonzero (threaded self)))
      ++ map ArrayRange (opt_list (Py.nonzero (arr self)))
      ++ map Stdin (opt_list (Py.nonempty (infile self))))
     ++ [Combined; Stdout o])%list).
  { unfold clauses. rewrite Ho, He.
    destruct o as [|c o]; [contradiction|].
    cbn [Py.nonempty Py.truthy Py.eq_opt andb]. rewrite String.eqb_refl.
    cbn [opt_list map app]. now rewrite <- !app_assoc. }
  split; [rewrite build_spec, Hok; reflexivity|].
  split; [exact Hcl|].
  split.
  { unfold qsub_line, qsub_flags. rewrite Hcl, map_app, concat_empty_app.
    cbn [map String.concat render].
    repeat (progress cbn [append] || rewrite append_assoc). reflexivity. }
  rewrite Hcl.
  destruct (String.eqb (queue self) "default"), (Py.nonzero (threaded self)),
    (Py.nonzero (arr self)), (Py.nonempty (infile self)); repeat split.
Qed.

Lemma build_combined_once_witness :
  let self := GridProcess_init "a | b" "" "himem" (Some 4%Z) None
                (Some "log") (Some "log") (Some 5%Z) in
  exists before,
    build self = (wrapped self, Returned (qsub_line self)) /\
    clauses self = (before ++ [Combined; Stdout "log"])%list /\
    qsub_line self =
      "qsub -P 04048 -cwd" ++ String.concat "" (map render before)
        ++ " -j y" ++ " -o " ++ "log" ++ " " ++ cmd (wrapped self) /\
    List.length (filter is_Combined (clauses self)) = 1 /\
    filter is_Stdout (clauses self) = [Stdout "log"] /\
    filter is_Stderr (clauses self) = [].
Proof.
  intros self.
  apply (build_combined_once self "log"); [reflexivity | reflexivity | discriminate | reflexivity].
Defined.

(** The line of that job, evaluated. *)
Example build_combined_example :
  snd (build (GridProcess_init "a | b" "" "himem" (Some 4%Z) None
                (Some "log") (Some "log") (Some 5%Z)))
  = Returned "qsub -P 04048 -cwd -l himem -pe threaded 4 -t 1-5 -j y -o log sh -c 'a | b'".
Proof. reflexivity. Qed.

(** ** The patterns of the scheduler's answers *)

Section PatternFacts.

Lemma match_here_lits (s : string) (p : re.pattern) (rest : string) :
  re.match_here (re.lits s ++ p)%list (s ++ rest) = re.match_here p rest.
Proof.
  induction s as [|c s IH]; [reflexivity|].
  cbn [re.lits list_ascii_of_string map app append re.match_here].
  rewrite Ascii.eqb_refl. exact IH.
Qed.

Lemma search_here (p : re.pattern) (s g : string) :
  re.match_here p s = Some g -> re.search p s = Some g.
Proof. intros H. destruct s; cbn [re.search]; now rewrite H. Qed.

(** A run of characters of the class followed by a space is captured
    whole. *)
Lemma match_group_space (cls : re.charclass) (id rest : string) :
  forallb (re.in_class cls) (list_ascii_of_string id) = true ->
  re.in_class cls " " = false ->
  re.match_here [re.GroupStar cls; re.Lit " "] (id ++ " " ++ rest) = Some id.
Proof.
  intros Hid Hsp. induction id as [|c id IH].
  - cbn. rewrite Hsp. reflexivity.
  - cbn [list_ascii_of_string forallb] in Hid.
    apply andb_true_iff in Hid as [Hc Hid]. specialize (IH Hid).
    cbn [re.match_here append] in IH |- *. rewrite Hc, IH. reflexivity.
Qed.

(** The answer to a single job gives back its number, whatever follows. *)
Lemma search_pat1 (id rest : string) :
  forallb Py.is_digit (list_ascii_of_string id) = true ->
  re.search pat1 ("Your job " ++ id ++ " " ++ rest) = Some id.
Proof.
  intros H. apply search_here. unfold pat1.
  rewrite match_here_lits. now apply (match_group_space re.Digit).
Qed.

(** The answer to an array job gives back the text up to the next space. *)
Lemma search_pat2 (id rest : string) :
  forallb (fun c => negb (Py.is_space c)) (list_ascii_of_string id) = true ->
  re.search pat2 ("Your job-array " ++ id ++ " " ++ rest) = Some id.
Proof.
  intros H. apply search_here. unfold pat2.
  rewrite match_here_lits. now apply (match_group_space re.NonSpace).
Qed.

(** Neither pattern reads the answer meant for the other. *)
Example patterns_do_not_cross :
  re.search pat1 "Your job-array 67 (...) has been submitted" = None /\
  re.search pat2 "Your job 12345 (...) has been submitted" = None.
Proof. split; reflexivity. Qed.

End PatternFacts.

(** ** The job launcher: the job identifier *)

Lemma arr_ok_in_range (a : Z) : (1 < a < 100000)%Z -> arr_ok (Some a) = true.
Proof.
  intros [H1 H2]. unfold arr_ok. destruct a as [|a|a]; try lia.
  cbn [Py.nonzero]. apply andb_true_iff. split; now apply Z.ltb_lt.
Qed.

Lemma pat_of_init (c j q : string) (t : option Z) (i o e : option string) (a : option Z) :
  pat (GridProcess_init c j q t i o e a) =
    match a with
    | None | Some 0%Z => pat1
    | Some _ => pat2
    end.
Proof. destruct a as [[|a|a]|]; reflexivity. Qed.

(** C5, as stated, does not hold: with an array size that is set to 0 the
    pattern is the one of a single job. *)
Lemma pat_arr_zero_scalar :
  let self := GridProcess_init "array.sh" "" "default" None None None None (Some 0%Z) in
  arr self = Some 0%Z /\ pat self = pat1 /\ pat self <> pat2.
Proof. cbv zeta. repeat split. discriminate. Qed.

(** C5, amended: the pattern of a job is the scalar one when the array
    size is unset or 0, and the array one when it is set to another value.
    When the scheduler answers [Your job 12345 (...) has been submitted] to
    a job without array size, [start] returns and the job identifier is
    [12345]; when it answers [Your job-array 67 (...) has been submitted]
    to a job with an array size within the bounds, the identifier is [67]. *)
Theorem jobid_extraction (c j q : string) (t : option Z) (i o e : option string) :
  pat (GridProcess_init c j q t i o e None) = pat1 /\
  pat (GridProcess_init c j q t i o e (Some 0%Z)) = pat1 /\
  (forall a, a <> 0%Z -> pat (GridProcess_init c j q t i o e (Some a)) = pat2) /\
  (forall w, exists p w',
     start (answers "Your job 12345 (...) has been submitted")
       (GridProcess_init c j q t i o e None, w) = ((p, w'), Returned tt)
     /\ jobid p = "12345") /\
  (forall a w, (1 < a < 100000)%Z -> exists p w',
     start (answers "Your job-array 67 (...) has been submitted")
       (GridProcess_init c j q t i o e (Some a), w) = ((p, w'), Returned tt)
     /\ jobid p = "67").
Proof.
  split; [reflexivity|]. split; [reflexivity|].
  split; [intros a Ha; rewrite pat_of_init; now destruct a|].
  split.
  - intros w.
    pose proof (start_spec (answers "Your job 12345 (...) has been submitted")
                  (GridProcess_init c j q t i o e None) w) as H.
    cbn [arr GridProcess_init arr_ok Py.nonzero] in H. unfold answers in H.
    change (String.eqb (Py.strip "Your job 12345 (...) has been submitted") "")
      with false in H.
    rewrite pat_of_init in H.
    change (re.search pat1 "Your job 12345 (...) has been submitted")
      with (Some "12345") in H.
    destruct H as (w' & H & _). eexists _, w'. split; [exact H | reflexivity].
  - intros a w Ha.
    pose proof (start_spec (answers "Your job-array 67 (...) has been submitted")
                  (GridProcess_init c j q t i o e (Some a)) w) as H.
    cbn [arr GridProcess_init] in H. rewrite (arr_ok_in_range a Ha) in H.
    unfold answers in H.
    change (String.eqb (Py.strip "Your job-array 67 (...) has been submitted") "")
      with false in H.
    replace (pat _) with pat2 in H
      by (rewrite pat_of_init; destruct a; [lia | reflexivity | reflexivity]).
    change (re.search pat2 "Your job-array 67 (...) has been submitted")
      with (Some "67") in H.
    destruct H as (w' & H & _). eexists _, w'. split; [exact H | reflexivity].
Qed.

Lemma jobid_extraction_witness :
  pat (GridProcess_init "array.sh" "" "default" None None None None (Some 3%Z)) = pat2 /\
  exists p w',
    start (answers "Your job-array 67 (...) has been submitted")
      (GridProcess_init "array.sh" "" "default" None None None None (Some 3%Z), World0)
      = ((p, w'), Returned tt)
    /\ jobid p = "67".
Proof.
  pose proof (jobid_extraction "array.sh" "" "default" None None None None)
    as (_ & _ & Hpat & _ & Harr).
  split.
  - apply (Hpat 3%Z). discriminate.
  - apply (Harr 3%Z World0). lia.
Defined.

(** A text is blank when all its characters are white space: this is
    when stripping leaves nothing. *)
Lemma rstrip_empty_iff (f : ascii -> bool) (s : string) :
  Py.rstrip_by f s = "" <-> forallb f (list_ascii_of_string s) = true.
Proof.
  induction s as [|c s IH]; cbn [Py.rstrip_by list_ascii_of_string forallb].
  - split; reflexivity.
  - destruct (Py.rstrip_by f s) as [|d r] eqn:E.
    + rewrite (proj1 IH eq_refl), andb_true_r.
      destruct (f c); split; try reflexivity; discriminate.
    + split; [discriminate|]. intros H. apply andb_true_iff in H as [_ H].
      apply IH in H. discriminate.
Qed.

Lemma lstrip_empty_iff (f : ascii -> bool) (s : string) :
  Py.lstrip_by f s = "" <-> forallb f (list_ascii_of_string s) = true.
Proof.
  induction s as [|c s IH]; cbn [Py.lstrip_by list_ascii_of_string forallb].
  - split; reflexivity.
  - destruct (f c); cbn [andb]; [exact IH | split; discriminate].
Qed.

Lemma strip_empty_iff (s : string) :
  Py.strip s = "" <-> forallb Py.is_space (list_ascii_of_string s) = true.
Proof.
  unfold Py.strip. rewrite lstrip_empty_iff. split; intros H.
  - apply rstrip_empty_iff. rewrite <- rstrip_idem. now apply rstrip_empty_iff.
  - apply rstrip_empty_iff in H. now rewrite H.
Qed.

(** C6: when [build] succeeds, an answer of the scheduler that is empty or
    made of white space only makes [start] return, and the job identifier
    is then [-1]; an answer that has a character other than white space and
    that neither pattern matches makes [start] raise: the identifier is left
    as it was and nothing is logged. *)
Theorem start_blank_or_unparsed (popen_read : list string -> string -> string)
    (c j q : string) (t : option Z) (i o e : option string) (a : option Z) (w : World) :
  arr_ok a = true ->
  let self := GridProcess_init c j q t i o e a in
  let output := popen_read (submitted w) (qsub_line self) in
  build self = (wrapped self, Returned (qsub_line self)) /\
  (forallb Py.is_space (list_ascii_of_string output) = true ->
     snd (start popen_read (self, w)) = Returned tt /\
     jobid (fst (fst (start popen_read (self, w)))) = "-1" /\
     submitted (snd (fst (start popen_read (self, w))))
     = (submitted w ++ [qsub_line self])%list) /\
  (Py.strip output = "" ->
     exists w', start popen_read (self, w)
                = ((set_jobid "-1" (wrapped self), w'), Returned tt)) /\
  (forallb Py.is_space (list_ascii_of_string output) = false ->
   re.search pat1 output = None -> re.search pat2 output = None ->
     snd (start popen_read (self, w))
     = Raised (AttributeError "'NoneType' object has no attribute 'group'") /\
     jobid (fst (fst (start popen_read (self, w)))) = j /\
     debug_log (snd (fst (start popen_read (self, w)))) = debug_log w) /\
  (Py.strip output <> "" ->
   re.search pat1 output = None -> re.search pat2 output = None ->
     start popen_read (self, w)
     = ((wrapped self, submit (qsub_line self) w),
        Raised (AttributeError "'NoneType' object has no attribute 'group'"))
     /\ jobid (wrapped self) = j
     /\ debug_log (submit (qsub_line self) w) = debug_log w).
Proof.
  intros Hok self output.
  pose proof (start_spec popen_read self w) as H.
  change (arr self) with a in H. rewrite Hok in H.
  fold output in H.
  assert (Hblank : Py.strip output = "" ->
            exists w', start popen_read (self, w)
                       = ((set_jobid "-1" (wrapped self), w'), Returned tt)
                       /\ submitted w' = (submitted w ++ [qsub_line self])%list).
  { intros Hb. rewrite Hb in H. cbn [String.eqb] in H.
    destruct H as (w' & H & Hs & _). now exists w'. }
  assert (Hbad : Py.strip output <> "" ->
            re.search pat1 output = None -> re.search pat2 output = None ->
            start popen_read (self, w)
            = ((wrapped self, submit (qsub_line self) w),
               Raised (AttributeError "'NoneType' object has no attribute 'group'"))).
  { intros Hnb H1 H2.
    apply String.eqb_neq in Hnb. rewrite Hnb in H.
    assert (Hnone : re.search (pat self) output = None).
    { unfold self. rewrite pat_of_init. destruct a as [[|n|n]|]; assumption. }
    now rewrite Hnone in H. }
  assert (Hj : jobid (wrapped self) = j)
    by now destruct (wrapped_fields self) as (-> & _).
  split; [rewrite build_spec; change (arr self) with a; now rewrite Hok|].
  split; [|split; [|split]].
  - intros Hall. apply strip_empty_iff in Hall.
    destruct (Hblank Hall) as (w' & -> & Hs). cbn [fst snd set_jobid jobid].
    repeat split. exact Hs.
  - intros Hb. destruct (Hblank Hb) as (w' & Hst & _). now exists w'.
  - intros Hsome H1 H2.
    assert (Hnb : Py.strip output <> "").
    { intros Hb. apply strip_empty_iff in Hb. congruence. }
    rewrite (Hbad Hnb H1 H2). cbn [fst snd]. repeat split. exact Hj.
  - intros Hnb H1 H2. rewrite (Hbad Hnb H1 H2). repeat split. exact Hj.
Qed.

Lemma start_blank_or_unparsed_witness :
  (snd (start (answers (String " " (String "010"%char (String "009"%char ""))))
          (GridProcess_init "ls" "" "default" None None None None None, World0))
   = Returned tt /\
   jobid (fst (fst (start (answers (String " " (String "010"%char (String "009"%char ""))))
                      (GridProcess_init "ls" "" "default" None None None None None, World0))))
   = "-1") /\
  (exists w', start (answers "") (GridProcess_init "ls" "" "default" None None None None None, World0)
              = ((set_jobid "-1" (GridProcess_init "ls" "" "default" None None None None None), w'),
                 Returned tt)) /\
  (snd (start (answers "Unable to run job")
          (GridProcess_init "ls" "77" "default" None None None None None, World0))
   = Raised (AttributeError "'NoneType' object has no attribute 'group'") /\
   jobid (fst (fst (start (answers "Unable to run job")
                      (GridProcess_init "ls" "77" "default" None None None None None, World0))))
   = "77") /\
  start (answers "Unable to run job") (GridProcess_init "ls" "" "default" None None None None None, World0)
  = ((GridProcess_init "ls" "" "default" None None None None None,
      submit "qsub -P 04048 -cwd ls" World0),
     Raised (AttributeError "'NoneType' object has no attribute 'group'")).
Proof.
  split; [|split; [|split]].
  - destruct (proj1 (proj2 (start_blank_or_unparsed
                (answers (String " " (String "010"%char (String "009"%char ""))))
                "ls" "" "default" None None None None None World0 eq_refl)) eq_refl)
      as (H1 & H2 & _).
    split; [exact H1 | exact H2].
  - apply (proj1 (proj2 (proj2 (start_blank_or_unparsed (answers "") "ls" "" "default"
                           None None None None None World0 eq_refl)))).
    reflexivity.
  - destruct (proj1 (proj2 (proj2 (proj2 (start_blank_or_unparsed
                (answers "Unable to run job")
                "ls" "77" "default" None None None None None World0 eq_refl))))
                eq_refl eq_refl eq_refl)
      as (H1 & H2 & _).
    split; [exact H1 | exact H2].
  - apply (proj2 (proj2 (proj2 (proj2 (start_blank_or_unparsed (answers "Unable to run job")
                           "ls" "" "default" None None None None None World0 eq_refl)))));
      [discriminate | reflexivity | reflexivity].
Defined.

(** ** The command builder: commands that need a shell *)

(** C7: a command with a pipe or a logical connective, in which the two
    quote characters do not both occur, is wrapped as [sh -c] followed by
    the command between two copies of a quote character that does not occur
    in it: the single quote whenever the command has none.  The wrapped
    text is the command of the line that [build] returns. *)
Theorem build_wraps_shell_command (self : GridProcess) :
  shell_command (cmd self) = true ->
  (Py.contains "'" (cmd self) = false \/ Py.contains Py.dquote (cmd self) = false) ->
  exists quote,
    (quote = "'" \/ quote = Py.dquote) /\
    Py.contains quote (cmd self) = false /\
    (Py.contains "'" (cmd self) = false -> quote = "'") /\
    cmd (fst (build self)) = "sh -c " ++ quote ++ cmd self ++ quote /\
    (arr_ok (arr self) = true ->
     snd (build self)
     = Returned (qsub_flags self ++ " " ++ "sh -c " ++ quote ++ cmd self ++ quote)).
Proof.
  intros Hsh Hq. rewrite build_spec. cbn [fst snd].
  unfold qsub_line, wrapped. rewrite Hsh. cbn [cmd set_cmd].
  destruct (Py.contains "'" (cmd self)) eqn:E.
  - destruct Hq as [Hq|Hq]; [discriminate|].
    exists Py.dquote. repeat split; auto; try discriminate.
    intros ->. reflexivity.
  - exists "'". repeat split; auto.
    intros ->. reflexivity.
Qed.

Lemma build_wraps_shell_command_witness :
  let self := GridProcess_init "cmdA | cmdB" "" "default" None None None None None in
  exists quote,
    (quote = "'" \/ quote = Py.dquote) /\
    Py.contains quote (cmd self) = false /\
    (Py.contains "'" (cmd self) = false -> quote = "'") /\
    cmd (fst (build self)) = "sh -c " ++ quote ++ cmd self ++ quote /\
    (arr_ok (arr self) = true ->
     snd (build self)
     = Returned (qsub_flags self ++ " " ++ "sh -c " ++ quote ++ cmd self ++ quote)).
Proof.
  intros self. apply (build_wraps_shell_command self); [reflexivity | left; reflexivity].
Defined.

(** The scenario of C7, evaluated. *)
Example build_pipe_example :
  build (GridProcess_init "cmdA | cmdB" "" "default" None None None None None)
  = (GridProcess_init "sh -c 'cmdA | cmdB'" "" "default" None None None None None,
     Returned "qsub -P 04048 -cwd sh -c 'cmdA | cmdB'").
Proof. reflexivity. Qed.

(** ** The job batch *)

Section GridFacts.

Variable popen_read : list string -> string -> string.

Lemma start_submitted (self : GridProcess) (w : World) :
  submitted (snd (fst (start popen_read (self, w))))
  = (submitted w ++ (if arr_ok (arr self) then [qsub_line self] else []))%list.
Proof.
  pose proof (start_spec popen_read self w) as H.
  destruct (arr_ok (arr self)).
  - destruct (String.eqb _ "").
    + destruct H as (w' & -> & H & _). exact H.
    + destruct (re.search _ _).
      * destruct H as (w' & -> & H & _). exact H.
      * rewrite H. reflexivity.
  - rewrite H. cbn [fst snd]. now rewrite app_nil_r.
Qed.

(** Every line that [Grid.run] submits is the line of a job of the batch,
    in the order of the batch. *)
Lemma Grid_run_submitted (g : list GridProcess) (w : World) :
  exists k, k <= List.length g /\
    submitted (snd (fst (Grid_run popen_read g w)))
    = (submitted w ++ map qsub_line (firstn k (filter (fun p => arr_ok (arr p)) g)))%list.
Proof.
  revert w. induction g as [|p g IH]; intros w.
  - exists 0. split; [reflexivity|]. cbn. now rewrite app_nil_r.
  - cbn [Grid_run].
    pose proof (start_submitted p w) as Hs.
    destruct (start popen_read (p, w)) as [[p' w'] [[]|e]]; cbn [fst snd] in Hs.
    + destruct (IH w') as (k & Hk & Hsub).
      destruct (Grid_run popen_read g w') as [[g' w''] r]. cbn [fst snd] in *.
      rewrite Hsub, Hs. cbn [filter].
      destruct (arr_ok (arr p)).
      * exists (S k). split; [cbn; lia|]. cbn [firstn map]. now rewrite <- app_assoc.
      * exists k. split; [cbn; lia|]. now rewrite app_nil_r.
    + cbn [fst snd]. rewrite Hs. cbn [filter].
      destruct (arr_ok (arr p)).
      * exists 1. split; [cbn; lia|]. reflexivity.
      * exists 0. split; [cbn; lia|]. reflexivity.
Qed.

Lemma Grid_fill_length (cmds : list string) (outfiles : list (option string)) :
  List.length (Grid_fill cmds outfiles)
  = Nat.min (List.length cmds) (List.length outfiles).
Proof.
  revert outfiles. induction cmds as [|c cmds IH]; intros [|o outfiles];
    cbn; auto.
Qed.

Lemma Grid_fill_fields (cmds : list string) (outfiles : list (option string)) :
  map cmd (Grid_fill cmds outfiles) = firstn (List.length outfiles) cmds /\
  map outfile (Grid_fill cmds outfiles) = firstn (List.length cmds) outfiles.
Proof.
  revert outfiles. induction cmds as [|c cmds IH]; intros [|o outfiles];
    cbn; auto.
  destruct (IH outfiles) as [-> ->]. auto.
Qed.

Lemma Grid_fill_firstn (cmds : list string) (outfiles : list (option string)) :
  Grid_fill (firstn (List.length outfiles) cmds) outfiles = Grid_fill cmds outfiles.
Proof.
  revert outfiles. induction cmds as [|c cmds IH]; intros [|o outfiles];
    cbn; auto.
  now rewrite IH.
Qed.

End GridFacts.

(** C9: with an empty list of commands the constructor of the batch raises
    the assertion error with its message, whatever the output files; a
    caller that constructs and runs the batch leaves the world as it was:
    nothing is submitted. *)
Theorem Grid_empty_commands (popen_read : list string -> string -> string)
    (outfiles : list (option string)) (w : World) :
  Grid_init [] outfiles = Raised (AssertionError "Commands empty!") /\
  Grid_submit popen_read [] outfiles w = (w, Raised (AssertionError "Commands empty!")).
Proof. split; reflexivity. Qed.

(** C10: with output files that are fewer than the commands (and at least
    one), the constructor returns a batch of as many jobs as there are
    output files, made of the first commands in order; the batch, and what
    running it does, are the ones of the first commands alone, and every
    line submitted is the line of one of these jobs. *)
Theorem Grid_short_outfiles (cmds : list string) (outfiles : list (option string)) :
  outfiles <> [] -> List.length outfiles < List.length cmds ->
  exists g,
    Grid_init cmds outfiles = Returned g /\
    List.length g = Nat.min (List.length cmds) (List.length outfiles) /\
    map cmd g = firstn (List.length outfiles) cmds /\
    map outfile g = outfiles /\
    Grid_init (firstn (List.length outfiles) cmds) outfiles = Returned g /\
    forall popen_read w,
      Grid_submit popen_read cmds outfiles w
      = Grid_submit popen_read (firstn (List.length outfiles) cmds) outfiles w /\
      exists k, k <= List.length outfiles /\
        submitted (fst (Grid_submit popen_read cmds outfiles w))
        = (submitted w ++ map qsub_line (firstn k g))%list.
Proof.
  intros Hne Hlen.
  destruct cmds as [|c cmds]; [cbn in Hlen; lia|].
  destruct outfiles as [|o outfiles]; [contradiction|].
  exists (Grid_fill (c :: cmds) (o :: outfiles)).
  assert (Hinit : Grid_init (firstn (List.length (o :: outfiles)) (c :: cmds)) (o :: outfiles)
                  = Returned (Grid_fill (c :: cmds) (o :: outfiles))).
  { rewrite <- (Grid_fill_firstn (c :: cmds) (o :: outfiles)). reflexivity. }
  split; [reflexivity|].
  split; [apply Grid_fill_length|].
  split; [apply Grid_fill_fields|].
  split.
  { rewrite (proj2 (Grid_fill_fields _ _)). apply firstn_all2. lia. }
  split; [exact Hinit|].
  intros popen_read w. split.
  { unfold Grid_submit. rewrite Hinit. reflexivity. }
  unfold Grid_submit.
  change (Grid_init (c :: cmds) (o :: outfiles))
    with (Returned (Grid_fill (c :: cmds) (o :: outfiles))).
  set (g := Grid_fill (c :: cmds) (o :: outfiles)).
  destruct (Grid_run_submitted popen_read g w) as (k & Hk & Hsub).
  assert (Hall : filter (fun p => arr_ok (arr p)) g = g).
  { unfold g. clear. generalize (c :: cmds) (o :: outfiles).
    intros l1. induction l1 as [|x l1 IH]; intros [|y l2]; cbn; auto.
    now rewrite IH. }
  rewrite Hall in Hsub.
  exists k. split.
  { unfold g in Hk. rewrite Grid_fill_length in Hk. lia. }
  destruct (Grid_run popen_read g w) as [[g' w'] [[]|e]]; exact Hsub.
Qed.

Lemma Grid_short_outfiles_witness :
  exists g,
    Grid_init ["a"; "b"; "c"] [Some "x"; None] = Returned g /\
    List.length g = Nat.min 3 2 /\
    map cmd g = ["a"; "b"] /\
    map outfile g = [Some "x"; None] /\
    Grid_init ["a"; "b"] [Some "x"; None] = Returned g /\
    forall popen_read w,
      Grid_submit popen_read ["a"; "b"; "c"] [Some "x"; None] w
      = Grid_submit popen_read ["a"; "b"] [Some "x"; None] w /\
      exists k, k <= 2 /\
        submitted (fst (Grid_submit popen_read ["a"; "b"; "c"] [Some "x"; None] w))
        = (submitted w ++ map qsub_line (firstn k g))%list.
Proof.
  apply (Grid_short_outfiles ["a"; "b"; "c"] [Some "x"; None]); [discriminate | cbn; lia].
Defined.

(** The batch of that example, run against a scheduler that answers. *)
Example Grid_batch_example :
  submitted (fst (Grid_submit (answers "Your job 9 (a) has been submitted")
                    ["a"; "b"; "c"] [Some "x"; None] World0))
  = ["qsub -P 04048 -cwd -o x a"; "qsub -P 04048 -cwd b"].
Proof. reflexivity. Qed.

(** ** The template expander: placeholders and sequence numbers *)

Section RunFacts.

Variable popen_read : list string -> string -> string.

(** The job of the [k]-th input line is constructed with index [i + k]. *)
Lemma run_jobs_nth (opts : GridOpts) (template : string) (filenames : list string) :
  forall i k,
    nth_error (run_jobs opts template i filenames) k
    = option_map (run_job opts template (i + k)) (nth_error filenames k).
Proof.
  induction filenames as [|f rest IH]; intros i k.
  - destruct k; reflexivity.
  - destruct k as [|k]; cbn [run_jobs nth_error option_map].
    + now rewrite Nat.add_0_r.
    + rewrite IH. now rewrite Nat.add_succ_r.
Qed.

(** The jobs of [run] are never array jobs. *)
Lemma run_job_arr (opts : GridOpts) (template : string) (i : nat) (filename : string) :
  arr (run_job opts template i filename) = None.
Proof. unfold run_job. now destruct (split_redirect _). Qed.

(** The loop of [run] submits the lines of these jobs in order, all of
    them when it returns. *)
Lemma run_loop_submitted (opts : GridOpts) (template : string) (filenames : list string) :
  forall i w,
    exists k, k <= List.length filenames /\
      submitted (fst (run_loop popen_read opts template i filenames w))
      = (submitted w ++ map qsub_line (firstn k (run_jobs opts template i filenames)))%list /\
      (snd (run_loop popen_read opts template i filenames w) = Returned tt ->
       k = List.length filenames).
Proof.
  induction filenames as [|f rest IH]; intros i w.
  - exists 0. cbn. rewrite app_nil_r. auto.
  - cbn [run_loop run_jobs].
    pose proof (start_submitted popen_read (run_job opts template i f) w) as Hs.
    rewrite run_job_arr in Hs. cbn [arr_ok Py.nonzero] in Hs.
    destruct (start popen_read (run_job opts template i f, w)) as [[p' w'] [[]|e]];
      cbn [fst snd] in Hs.
    + destruct (IH (S i) w') as (k & Hk & Hsub & Hret).
      exists (S k). split; [cbn; lia|]. split.
      * rewrite Hsub, Hs. cbn [firstn map]. now rewrite <- app_assoc.
      * intros H. cbn. f_equal. auto.
    + exists 1. split; [cbn; lia|]. split; [exact Hs | discriminate].
Qed.

End RunFacts.

(** C8: against the input line [t/example.tar.gz], each placeholder is
    replaced by the text that the documentation of [run] gives for it, the
    sequence placeholder by the index of the input line, and so is a
    template that holds them all; the index given to the [k]-th input
    line is [k], counting from 0. *)
Theorem expand_example (i : nat) :
  expand "{}" i "t/example.tar.gz" = "t/example.tar.gz" /\
  expand "{.}" i "t/example.tar.gz" = "t/example.tar" /\
  expand "{_}" i "t/example.tar.gz" = "t/example" /\
  expand "{/}" i "t/example.tar.gz" = "example.tar.gz" /\
  expand "{/.}" i "t/example.tar.gz" = "example.tar" /\
  expand "{/_}" i "t/example.tar.gz" = "example" /\
  expand "{#}" i "t/example.tar.gz" = Py.str (Z.of_nat i) /\
  expand "{} {.} {_} {/} {/.} {/_} {#}" i "t/example.tar.gz"
  = "t/example.tar.gz t/example.tar t/example example.tar.gz example.tar example "
    ++ Py.str (Z.of_nat i) /\
  Py.str (Z.of_nat 0) = "0" /\
  (forall opts template filenames k,
     nth_error (run_jobs opts template 0 filenames) k
     = option_map (run_job opts template k) (nth_error filenames k)) /\
  run (answers "Your job 1 (echo) has been submitted") (mkGridOpts "default" None)
    ["echo"; "{#}"; "{/_}"; ":::"; "a.txt"; "b/c.d"; "t/example.tar.gz"] [] World0
  = (mkWorld ["qsub -P 04048 -cwd echo 0 a";
              "qsub -P 04048 -cwd echo 1 c";
              "qsub -P 04048 -cwd echo 2 example"]
             []
             ["[1] echo 0 a"; "[1] echo 1 c"; "[1] echo 2 example"]
             [],
     Returned tt).
Proof.
  unfold expand, place_input. generalize (Py.str (Z.of_nat i)). intros n.
  repeat split; cbn; rewrite ?append_empty_r; try reflexivity.
  intros opts template filenames k. apply run_jobs_nth.
Qed.

(* ================================================================= *)
(** * Part III. Further properties of the module *)
(* ================================================================= *)

(** ** More on strings *)

Section MoreStringFacts.

Lemma startswith_append_l (p a b : string) :
  Py.startswith p a = true -> Py.startswith p (a ++ b) = true.
Proof.
  intros H. destruct (startswith_inv _ _ H) as [r ->].
  rewrite append_assoc. apply startswith_append.
Qed.

Lemma contains_append_l (p a b : string) :
  Py.contains p a = true -> Py.contains p (a ++ b) = true.
Proof.
  induction a as [|c a IH]; cbn [Py.contains append].
  - destruct p; [intros _|discriminate]. destruct b; reflexivity.
  - intros H. apply orb_true_iff in H as [H|H].
    + change (String c (a ++ b)) with (String c a ++ b).
      now rewrite (startswith_append_l _ _ b H).
    + rewrite (IH H). apply orb_true_r.
Qed.

Lemma contains_append_r (p a b : string) :
  Py.contains p b = true -> Py.contains p (a ++ b) = true.
Proof.
  intros H. induction a as [|c a IH]; [exact H|].
  cbn [append Py.contains]. rewrite IH. apply orb_true_r.
Qed.

(** A text occurs only where its first character does. *)
Lemma contains_first_char (c : ascii) (p s : string) :
  Py.contains (String c p) s = true -> Py.contains (String c "") s = true.
Proof.
  induction s as [|a s IH]; cbn [Py.contains]; [discriminate|].
  intros H. apply orb_true_iff in H as [H|H].
  - cbn [Py.startswith] in H |- *. apply andb_true_iff in H as [-> _]. reflexivity.
  - rewrite (IH H). apply orb_true_r.
Qed.

Lemma replace_absent (old new s : string) :
  old <> "" -> Py.contains old s = false -> Py.replace old new s = s.
Proof.
  intros Hold H. destruct old; [contradiction|].
  now apply replace_from_absent.
Qed.

Lemma contains_char_append (c : ascii) (a b : string) :
  Py.contains (String c "") (a ++ b)
  = Py.contains (String c "") a || Py.contains (String c "") b.
Proof.
  induction a as [|x a IH]; [reflexivity|].
  cbn [append Py.contains Py.startswith]. rewrite IH.
  now rewrite andb_true_r, orb_assoc.
Qed.

Lemma cut_first_append (c : ascii) (a b : string) :
  Py.contains (String c "") a = false ->
  Py.cut_first c (a ++ String c b) = Some (a, b).
Proof.
  induction a as [|x a IH]; cbn [append Py.cut_first Py.contains Py.startswith].
  - intros _. now rewrite Ascii.eqb_refl.
  - rewrite andb_true_r. intros H. apply orb_false_iff in H as [Hx Ha].
    rewrite Ascii.eqb_sym, Hx. now rewrite (IH Ha).
Qed.

Lemma cut_last_none (c : ascii) (s : string) :
  Py.contains (String c "") s = false -> Py.cut_last c s = None.
Proof.
  induction s as [|x s IH]; [reflexivity|].
  cbn [Py.cut_last Py.contains Py.startswith]. rewrite andb_true_r.
  intros H. apply orb_false_iff in H as [Hx Hs].
  rewrite (IH Hs). now rewrite Ascii.eqb_sym, Hx.
Qed.

Lemma cut_last_append (c : ascii) (a b : string) :
  Py.contains (String c "") b = false ->
  Py.cut_last c (a ++ String c b) = Some (a, b).
Proof.
  intros Hb. induction a as [|x a IH]; cbn [append Py.cut_last].
  - rewrite (cut_last_none _ _ Hb). now rewrite Ascii.eqb_refl.
  - now rewrite IH.
Qed.

Lemma cut_first_none (c : ascii) (s : string) :
  Py.contains (String c "") s = false -> Py.cut_first c s = None.
Proof.
  intros H. destruct (Py.cut_first c s) as [[h t]|] eqn:E; [|reflexivity].
  assert (Py.contains (String c "") s = true)
    by (apply contains_char_cut; now exists h, t).
  congruence.
Qed.

(** Stripping does not bring in a character. *)
Lemma lstrip_contains_char (f : ascii -> bool) (c : ascii) (s : string) :
  Py.contains (String c "") s = false ->
  Py.contains (String c "") (Py.lstrip_by f s) = false.
Proof.
  induction s as [|x s IH]; [intros H; exact H|].
  intros H. cbn [Py.lstrip_by]. destruct (f x); [|exact H].
  apply IH. cbn [Py.contains] in H. now apply orb_false_iff in H as [_ H].
Qed.

Lemma rstrip_contains_char (f : ascii -> bool) (c : ascii) (s : string) :
  Py.contains (String c "") s = false ->
  Py.contains (String c "") (Py.rstrip_by f s) = false.
Proof.
  induction s as [|x s IH]; [intros H; exact H|].
  intros H. cbn [Py.contains Py.startswith] in H. rewrite andb_true_r in H.
  apply orb_false_iff in H as [Hx Hs]. specialize (IH Hs).
  cbn [Py.rstrip_by]. destruct (Py.rstrip_by f s) as [|y r] eqn:E.
  - destruct (f x); [reflexivity|]. cbn. now rewrite Hx.
  - change (Py.contains (String c "") (String x (String y r)))
      with (Py.startswith (String c "") (String x (String y r))
            || Py.contains (String c "") (String y r)).
    rewrite IH. cbn [Py.startswith]. now rewrite Hx.
Qed.

Lemma strip_contains_char (c : ascii) (s : string) :
  Py.contains (String c "") s = false ->
  Py.contains (String c "") (Py.strip s) = false.
Proof.
  intros H. unfold Py.strip. now apply lstrip_contains_char, rstrip_contains_char.
Qed.

(** A text that starts with a character that is not white space is not
    blank. *)
Lemma strip_not_blank (c : ascii) (s : string) :
  Py.is_space c = false -> String.eqb (Py.strip (String c s)) "" = false.
Proof.
  intros H. unfold Py.strip. cbn [Py.rstrip_by].
  destruct (Py.rstrip_by Py.is_space s); rewrite ?H; cbn [Py.lstrip_by];
    rewrite H; reflexivity.
Qed.

End MoreStringFacts.

(** ** More on the command builder *)

Section MoreBuildFacts.

(** X1: [build] returns a line exactly when the array size is unset, 0, or
    strictly between 1 and 100000, and raises the assertion error otherwise;
    either way the command of the job has been wrapped by then: a command
    that needs a shell has become [sh -c] and the quoted command, also when
    the assertion fails, and any other command is as it was. *)
Theorem build_returns_iff (self : GridProcess) :
  fst (build self) = wrapped self /\
  (shell_command (cmd self) = true ->
   cmd (fst (build self))
   = "sh -c " ++ (if Py.contains "'" (cmd self) then Py.dquote else "'")
     ++ cmd self ++ (if Py.contains "'" (cmd self) then Py.dquote else "'")) /\
  (shell_command (cmd self) = false -> cmd (fst (build self)) = cmd self) /\
  ((exists line, snd (build self) = Returned line) <->
   (arr self = None \/ arr self = Some 0%Z \/
    exists a, arr self = Some a /\ (1 < a < 100000)%Z)) /\
  ((forall line, snd (build self) <> Returned line) ->
   snd (build self) = Raised (AssertionError "")).
Proof.
  rewrite build_spec. cbn [fst snd]. split; [reflexivity|].
  split; [intros Hsh; unfold wrapped; rewrite Hsh; reflexivity|].
  split; [intros Hsh; unfold wrapped; rewrite Hsh; reflexivity|].
  unfold arr_ok. destruct (arr self) as [[|a|a]|]; cbn [Py.nonzero].
  - split; [|intros H; now destruct (H _ eq_refl)].
    split; [auto | intros _; eauto].
  - destruct ((1 <? Z.pos a)%Z && (Z.pos a <? 100000)%Z) eqn:E.
    + split; [|intros H; now destruct (H _ eq_refl)].
      split; [|intros _; eauto].
      intros _. right. right. exists (Z.pos a). split; [reflexivity|].
      apply andb_true_iff in E as [E1 E2]. apply Z.ltb_lt in E1, E2. lia.
    + split; [|reflexivity].
      split; [intros [l H]; discriminate|].
      intros [H|[H|(b & H & Hb)]]; try discriminate.
      inversion H; subst b.
      assert ((1 <? Z.pos a)%Z && (Z.pos a <? 100000)%Z = true)
        by (apply andb_true_iff; split; apply Z.ltb_lt; lia).
      congruence.
  - split; [|reflexivity].
    split; [intros [l H]; discriminate|].
    intros [H|[H|(b & H & Hb)]]; try discriminate.
    inversion H; subst b. lia.
  - split; [|intros H; now destruct (H _ eq_refl)].
    split; [auto | intros _; eauto].
Qed.

Lemma build_returns_iff_witness :
  (exists line,
     snd (build (GridProcess_init "x" "" "default" None None None None (Some 2%Z)))
     = Returned line) /\
  snd (build (GridProcess_init "x" "" "default" None None None None (Some (-3)%Z)))
  = Raised (AssertionError "") /\
  (cmd (fst (build (GridProcess_init "a | b" "" "default" None None None None (Some 1%Z))))
   = "sh -c 'a | b'" /\
   snd (build (GridProcess_init "a | b" "" "default" None None None None (Some 1%Z)))
   = Raised (AssertionError "")).
Proof.
  split; [|split; [|split]].
  - apply (proj2 (proj1 (proj2 (proj2 (proj2 (build_returns_iff
        (GridProcess_init "x" "" "default" None None None None (Some 2%Z)))))))).
    right. right. exists 2%Z. split; [reflexivity | lia].
  - apply (proj2 (proj2 (proj2 (proj2 (build_returns_iff
        (GridProcess_init "x" "" "default" None None None None (Some (-3)%Z))))))).
    intros line. discriminate.
  - apply (proj1 (proj2 (build_returns_iff
        (GridProcess_init "a | b" "" "default" None None None None (Some 1%Z))))).
    reflexivity.
  - apply (proj2 (proj2 (proj2 (proj2 (build_returns_iff
        (GridProcess_init "a | b" "" "default" None None None None (Some 1%Z))))))).
    intros line. discriminate.
Defined.

(** X2: Unless the output file is set and equal to the error file, the line
    has no combined-stream clause: it ends with an output clause if the
    output file is set, an error clause if the error file is set, and the
    command. *)
Theorem build_separate_redirects (self : GridProcess) :
  outfile self <> errfile self \/ Py.nonempty (outfile self) = None ->
  arr_ok (arr self) = true ->
  exists before,
    build self = (wrapped self, Returned (qsub_line self)) /\
    clauses self
    = (before ++ map Stdout (opt_list (Py.nonempty (outfile self)))
              ++ map Stderr (opt_list (Py.nonempty (errfile self))))%list /\
    filter is_Combined (clauses self) = [] /\
    filter is_Stdout before = [] /\ filter is_Stderr before = [] /\
    qsub_line self
    = "qsub -P 04048 -cwd" ++ String.concat "" (map render before)
      ++ match Py.nonempty (outfile self) with Some o => " -o " ++ o | None => "" end
      ++ match Py.nonempty (errfile self) with Some e => " -e " ++ e | None => "" end
      ++ " " ++ cmd (wrapped self).
Proof.
  intros Hdiff Hok.
  assert (Hsame : Py.truthy (Py.nonempty (outfile self))
                  && Py.eq_opt (outfile self) (errfile self) = false).
  { destruct Hdiff as [Hd|Hn]; [|now rewrite Hn].
    destruct (outfile self) as [o|], (errfile self) as [e|];
      cbn [Py.eq_opt]; rewrite ?andb_false_r; try reflexivity.
    destruct (String.eqb_spec o e) as [->|]; [now destruct Hd | apply andb_false_r]. }
  exists ((if String.eqb (queue self) "default" then [] else [Resource (queue self)])
          ++ map Parallel (opt_list (Py.nonzero (threaded self)))
          ++ map ArrayRange (opt_list (Py.nonzero (arr self)))
          ++ map Stdin (opt_list (Py.nonempty (infile self))))%list.
  assert (Hcl : clauses self =
    (((if String.eqb (queue self) "default" then [] else [Resource (queue self)])
      ++ map Parallel (opt_list (Py.nonzero (threaded self)))
      ++ map ArrayRange (opt_list (Py.nonzero (arr self)))
      ++ map Stdin (opt_list (Py.nonempty (infile self))))
     ++ map Stdout (opt_list (Py.nonempty (outfile self)))
     ++ map Stderr (opt_list (Py.nonempty (errfile self))))%list).
  { unfold clauses. rewrite Hsame. cbn [app]. now rewrite <- !app_assoc. }
  split; [rewrite build_spec, Hok; reflexivity|].
  split; [exact Hcl|].
  split.
  { rewrite Hcl.
    destruct (String.eqb (queue self) "default"), (Py.nonzero (threaded self)),
      (Py.nonzero (arr self)), (Py.nonempty (infile self)),
      (Py.nonempty (outfile self)), (Py.nonempty (errfile self)); reflexivity. }
  split.
  { destruct (String.eqb (queue self) "default"), (Py.nonzero (threaded self)),
      (Py.nonzero (arr self)), (Py.nonempty (infile self)); reflexivity. }
  split.
  { destruct (String.eqb (queue self) "default"), (Py.nonzero (threaded self)),
      (Py.nonzero (arr self)), (Py.nonempty (infile self)); reflexivity. }
  unfold qsub_line, qsub_flags. rewrite Hcl, !map_app, !concat_empty_app.
  destruct (Py.nonempty (outfile self)), (Py.nonempty (errfile self));
    cbn [opt_list map String.concat render];
    repeat (progress cbn [append] || rewrite append_assoc); reflexivity.
Qed.

Lemma build_separate_redirects_witness :
  let self := GridProcess_init "ls" "" "default" None None (Some "o") (Some "e") None in
  exists before,
    build self = (wrapped self, Returned (qsub_line self)) /\
    clauses self
    = (before ++ map Stdout (opt_list (Py.nonempty (outfile self)))
              ++ map Stderr (opt_list (Py.nonempty (errfile self))))%list /\
    filter is_Combined (clauses self) = [] /\
    filter is_Stdout before = [] /\ filter is_Stderr before = [] /\
    qsub_line self
    = "qsub -P 04048 -cwd" ++ String.concat "" (map render before)
      ++ match Py.nonempty (outfile self) with Some o => " -o " ++ o | None => "" end
      ++ match Py.nonempty (errfile self) with Some e => " -e " ++ e | None => "" end
      ++ " " ++ cmd (wrapped self).
Proof.
  intros self. apply (build_separate_redirects self); [left; discriminate | reflexivity].
Defined.

Lemma shell_command_wrapped (q c : string) :
  shell_command c = true -> shell_command ("sh -c " ++ q ++ c ++ q) = true.
Proof.
  unfold shell_command. intros H.
  apply orb_true_iff in H as [H|H]; [apply orb_true_iff in H as [H|H]|].
  - rewrite (contains_append_r "|" "sh -c " _
               (contains_append_r "|" q _ (contains_append_l "|" c q H))).
    reflexivity.
  - rewrite (contains_append_r "&&" "sh -c " _
               (contains_append_r "&&" q _ (contains_append_l "&&" c q H))).
    now rewrite orb_true_r.
  - rewrite (contains_append_r "||" "sh -c " _
               (contains_append_r "||" q _ (contains_append_l "||" c q H))).
    now rewrite !orb_true_r.
Qed.

(** X3: [build] is not idempotent on a command that needs a shell: a second
    [build] wraps the wrapped command once more, always in double quotes. *)
Theorem build_twice_wraps_twice (self : GridProcess) :
  shell_command (cmd self) = true ->
  cmd (fst (build (fst (build self))))
  = "sh -c " ++ Py.dquote ++ cmd (fst (build self)) ++ Py.dquote /\
  cmd (fst (build (fst (build self)))) <> cmd (fst (build self)).
Proof.
  intros Hsh. rewrite !build_spec. cbn [fst].
  assert (Hw : cmd (wrapped self)
               = "sh -c " ++ (if Py.contains "'" (cmd self) then Py.dquote else "'")
                 ++ cmd self ++ (if Py.contains "'" (cmd self) then Py.dquote else "'")).
  { unfold wrapped. now rewrite Hsh. }
  assert (Hsh' : shell_command (cmd (wrapped self)) = true).
  { rewrite Hw. now apply shell_command_wrapped. }
  assert (Hq : Py.contains "'" (cmd (wrapped self)) = true).
  { rewrite Hw. apply (contains_append_r "'" "sh -c ").
    destruct (Py.contains "'" (cmd self)) eqn:E.
    - apply contains_append_r. now apply contains_append_l.
    - now apply contains_append_l. }
  assert (Hww : cmd (wrapped (wrapped self))
                = "sh -c " ++ Py.dquote ++ cmd (wrapped self) ++ Py.dquote).
  { unfold wrapped at 1. now rewrite Hsh', Hq. }
  split; [exact Hww|].
  rewrite Hww. intros H. apply (f_equal String.length) in H.
  rewrite !length_append in H. cbn in H. lia.
Qed.

Lemma build_twice_wraps_twice_witness :
  cmd (fst (build (fst (build
    (GridProcess_init "a | b" "" "default" None None None None None)))))
  = "sh -c " ++ Py.dquote ++ "sh -c 'a | b'" ++ Py.dquote.
Proof.
  rewrite (proj1 (build_twice_wraps_twice
             (GridProcess_init "a | b" "" "default" None None None None None) eq_refl)).
  reflexivity.
Defined.

(** X4: [build] leaves the job as it is exactly when its command has no pipe
    and no logical connective. *)
Theorem build_unchanged_iff (self : GridProcess) :
  fst (build self) = self <-> shell_command (cmd self) = false.
Proof.
  rewrite build_spec. cbn [fst]. unfold wrapped.
  destruct (shell_command (cmd self)) eqn:E; split; try reflexivity; try discriminate.
  intros H. apply (f_equal cmd) in H. cbn [cmd set_cmd] in H.
  apply (f_equal String.length) in H. rewrite !length_append in H.
  destruct (Py.contains "'" (cmd self)); cbn in H; lia.
Qed.

Lemma build_unchanged_iff_witness :
  fst (build (GridProcess_init "ls -l" "7" "default" None None None None None))
  = GridProcess_init "ls -l" "7" "default" None None None None None.
Proof.
  apply (proj2 (build_unchanged_iff
                  (GridProcess_init "ls -l" "7" "default" None None None None None))).
  reflexivity.
Defined.

(** X5: A command that needs a shell and has a single quote is wrapped in
    double quotes also when it has double quotes of its own: the quote that
    is used then occurs in the command. *)
Theorem build_both_quotes (self : GridProcess) :
  shell_command (cmd self) = true ->
  Py.contains "'" (cmd self) = true ->
  Py.contains Py.dquote (cmd self) = true ->
  cmd (fst (build self)) = "sh -c " ++ Py.dquote ++ cmd self ++ Py.dquote /\
  forall quote,
    cmd (fst (build self)) = "sh -c " ++ quote ++ cmd self ++ quote ->
    Py.contains quote (cmd self) = true.
Proof.
  intros Hsh Hs Hd. rewrite build_spec. cbn [fst]. unfold wrapped.
  rewrite Hsh, Hs. cbn [cmd set_cmd]. split; [reflexivity|].
  intros quote H. apply (append_inj_l "sh -c ") in H.
  assert (quote = Py.dquote) as ->; [|exact Hd].
  pose proof (f_equal String.length H) as L. rewrite !length_append in L.
  destruct quote as [|a [|b q]]; cbn in L; try lia.
  cbn in H. now injection H as <- _.
Qed.

Lemma build_both_quotes_witness :
  cmd (fst (build (GridProcess_init
                     ("echo 'a' " ++ Py.dquote ++ "b" ++ Py.dquote ++ " | wc") ""
                     "default" None None None None None)))
  = "sh -c " ++ Py.dquote
    ++ ("echo 'a' " ++ Py.dquote ++ "b" ++ Py.dquote ++ " | wc") ++ Py.dquote.
Proof.
  apply (proj1 (build_both_quotes
                  (GridProcess_init
                     ("echo 'a' " ++ Py.dquote ++ "b" ++ Py.dquote ++ " | wc") ""
                     "default" None None None None None)
                  eq_refl eq_refl eq_refl)).
Defined.

End MoreBuildFacts.

(** ** More on the job launcher *)

Section MoreStartFacts.

Variable popen_read : list string -> string -> string.

(** The job and the world that [start] leaves when it returns. *)
Lemma start_returns_world (self : GridProcess) (w : World) (id : string) :
  arr_ok (arr self) = true ->
  (Py.strip (popen_read (submitted w) (qsub_line self)) = "" /\ id = "-1") \/
  (Py.strip (popen_read (submitted w) (qsub_line self)) <> "" /\
   re.search (pat self) (popen_read (submitted w) (qsub_line self)) = Some id) ->
  start popen_read (self, w)
  = ((set_jobid id (wrapped self),
      launched self w id),
     Returned tt).
Proof.
  intros Hok Hans.
  unfold launched, start, bind, on_fst, on_snd, popen.
  cbn [fst snd]. rewrite build_spec, Hok. cbn [fst snd submitted].
  destruct (wrapped_fields self) as (_ & _ & _ & Hi & Ho & He & _ & Hp).
  assert (Hid : (if negb (String.eqb (Py.strip (popen_read (submitted w) (qsub_line self))) "")
                 then re.search (pat self) (popen_read (submitted w) (qsub_line self))
                 else Some "-1") = Some id).
  { destruct Hans as [[Hb ->]|[Hb Hs]].
    - now rewrite Hb.
    - apply String.eqb_neq in Hb. now rewrite Hb. }
  destruct (String.eqb (Py.strip _) ""); cbn [negb] in Hid |- *.
  - injection Hid as <-.
    cbv [modify get ret backup logging_debug].
    cbn [fst snd set_jobid infile outfile errfile cmd jobid].
    rewrite ?Hi, ?Ho, ?He.
    destruct (Py.nonempty (infile self)), (Py.nonempty (outfile self)),
      (Py.nonempty (errfile self));
      cbn [fst snd infile outfile errfile set_jobid submitted backed_up debug_log
           written opt_list app cmd jobid];
      rewrite ?app_nil_r, <- ?app_assoc; cbn [app];
      repeat (progress cbn [append] || rewrite append_assoc || rewrite append_empty_r);
      reflexivity.
  - cbv [get]. cbn [fst snd]. rewrite Hp, Hid.
    cbv [modify get ret backup logging_debug].
    cbn [fst snd set_jobid infile outfile errfile cmd jobid].
    rewrite ?Hi, ?Ho, ?He.
    destruct (Py.nonempty (infile self)), (Py.nonempty (outfile self)),
      (Py.nonempty (errfile self));
      cbn [fst snd infile outfile errfile set_jobid submitted backed_up debug_log
           written opt_list app cmd jobid];
      rewrite ?app_nil_r, <- ?app_assoc; cbn [app];
      repeat (progress cbn [append] || rewrite append_assoc || rewrite append_empty_r);
      reflexivity.
Qed.

(** X6: When [start] returns, it has submitted the line once, then backed up
    the output file and the error file in this order (the same path twice
    when they are equal), then logged one message that names the identifier,
    the command and the files; nothing is written. *)
Theorem start_effects (self : GridProcess) (w : World) :
  arr_ok (arr self) = true ->
  (Py.strip (popen_read (submitted w) (qsub_line self)) = "" ->
   start popen_read (self, w)
   = ((set_jobid "-1" (wrapped self), launched self w "-1"), Returned tt)) /\
  (forall id,
     Py.strip (popen_read (submitted w) (qsub_line self)) <> "" ->
     re.search (pat self) (popen_read (submitted w) (qsub_line self)) = Some id ->
     start popen_read (self, w)
     = ((set_jobid id (wrapped self), launched self w id), Returned tt)) /\
  (forall id,
     submitted (launched self w id) = (submitted w ++ [qsub_line self])%list /\
     backed_up (launched self w id)
     = (backed_up w ++ opt_list (Py.nonempty (outfile self))
                    ++ opt_list (Py.nonempty (errfile self)))%list /\
     List.length (debug_log (launched self w id)) = S (List.length (debug_log w)) /\
     written (launched self w id) = written w).
Proof.
  intros Hok. split; [|split].
  - intros Hb. apply start_returns_world; [exact Hok | now left].
  - intros id Hb Hs. apply start_returns_world; [exact Hok | now right].
  - intros id. unfold launched. cbn [submitted backed_up debug_log written].
    rewrite length_app. cbn [List.length]. repeat split. lia.
Qed.

End MoreStartFacts.

Lemma start_effects_witness :
  start (answers "Your job 5 (ls) has been submitted")
    (GridProcess_init "ls" "" "default" None (Some "in") (Some "log") (Some "log") None,
     World0)
  = ((GridProcess_init "ls" "5" "default" None (Some "in") (Some "log") (Some "log") None,
      mkWorld ["qsub -P 04048 -cwd -i in -j y -o log ls"] ["log"; "log"]
              ["[5] ls < in  > log  2> log "] []),
     Returned tt).
Proof.
  apply (proj1 (proj2 (start_effects (answers "Your job 5 (ls) has been submitted")
           (GridProcess_init "ls" "" "default" None (Some "in") (Some "log") (Some "log") None)
           World0 eq_refl)) "5"); [discriminate | reflexivity].
Defined.

(** ** More on the job identifier *)

Section MorePatternFacts.

(** What a starred group captures is made of characters of its class. *)
Lemma match_group_class (cls : re.charclass) (p : re.pattern) (s g : string) :
  re.match_here (re.GroupStar cls :: p) s = Some g ->
  forallb (re.in_class cls) (list_ascii_of_string g) = true.
Proof.
  revert g. induction s as [|a s IH]; intros g; cbn [re.match_here].
  - destruct (re.match_here p ""); intros H; inversion H; reflexivity.
  - cbn [re.match_here] in IH.
    destruct (re.in_class cls a) eqn:E.
    + destruct ((fix star (s0 : string) : option string := _) s) as [g0|] eqn:Es.
      * intros H. inversion H; subst. cbn [list_ascii_of_string forallb].
        now rewrite E, (IH g0 eq_refl).
      * destruct (re.match_here p (String a s)); intros H; inversion H; reflexivity.
    + destruct (re.match_here p (String a s)); intros H; inversion H; reflexivity.
Qed.

Lemma match_here_lits_inv (l : string) (p : re.pattern) (s g : string) :
  re.match_here (re.lits l ++ p)%list s = Some g ->
  exists s', s = l ++ s' /\ re.match_here p s' = Some g.
Proof.
  revert s. induction l as [|c l IH]; intros s H.
  - now exists s.
  - cbn [re.lits list_ascii_of_string map app re.match_here] in H.
    destruct s as [|a s]; [discriminate|].
    destruct (Ascii.eqb_spec a c) as [->|]; [|discriminate].
    destruct (IH s H) as (s' & -> & Hs'). now exists s'.
Qed.

Lemma search_inv (p : re.pattern) (s g : string) :
  re.search p s = Some g ->
  exists before s', s = before ++ s' /\ re.match_here p s' = Some g.
Proof.
  induction s as [|a s IH]; cbn [re.search].
  - destruct (re.match_here p "") eqn:E; [|discriminate].
    intros H. inversion H; subst. now exists "", "".
  - destruct (re.match_here p (String a s)) eqn:E.
    + intros H. inversion H; subst. now exists "", (String a s).
    + intros H. destruct (IH H) as (b & s' & -> & Hs'). now exists (String a b), s'.
Qed.

(** The identifier found by the scalar pattern is made of digits and
    follows [Your job ]; the one found by the array pattern has no white
    space and follows [Your job-array ]. *)
Lemma search_pat1_inv (s id : string) :
  re.search pat1 s = Some id ->
  forallb Py.is_digit (list_ascii_of_string id) = true /\
  exists before rest, s = before ++ "Your job " ++ rest.
Proof.
  intros H. destruct (search_inv _ _ _ H) as (b & s' & -> & Hm).
  unfold pat1 in Hm. apply match_here_lits_inv in Hm as (r & -> & Hm).
  split; [exact (match_group_class re.Digit _ _ _ Hm) | now exists b, r].
Qed.

Lemma search_pat2_inv (s id : string) :
  re.search pat2 s = Some id ->
  forallb (fun c => negb (Py.is_space c)) (list_ascii_of_string id) = true /\
  exists before rest, s = before ++ "Your job-array " ++ rest.
Proof.
  intros H. destruct (search_inv _ _ _ H) as (b & s' & -> & Hm).
  unfold pat2 in Hm. apply match_here_lits_inv in Hm as (r & -> & Hm).
  split; [exact (match_group_class re.NonSpace _ _ _ Hm) | now exists b, r].
Qed.

End MorePatternFacts.

Section MoreJobidFacts.

Variable popen_read : list string -> string -> string.

(** X7: To a job that is not an array job, an answer [Your job N rest] with
    [N] made of digits gives the identifier [N], whatever [rest] is. *)
Theorem start_scalar_answer (c j q : string) (t : option Z) (i o e : option string)
    (a : option Z) (w : World) (id rest : string) :
  Py.nonzero a = None ->
  forallb Py.is_digit (list_ascii_of_string id) = true ->
  popen_read (submitted w) (qsub_line (GridProcess_init c j q t i o e a))
  = "Your job " ++ id ++ " " ++ rest ->
  snd (start popen_read (GridProcess_init c j q t i o e a, w)) = Returned tt /\
  jobid (fst (fst (start popen_read (GridProcess_init c j q t i o e a, w)))) = id /\
  exists w',
    start popen_read (GridProcess_init c j q t i o e a, w)
    = ((set_jobid id (wrapped (GridProcess_init c j q t i o e a)), w'), Returned tt).
Proof.
  intros Ha Hid Hans.
  pose proof (start_spec popen_read (GridProcess_init c j q t i o e a) w) as H.
  rewrite Hans in H. cbn [arr GridProcess_init] in H.
  unfold arr_ok in H. rewrite Ha in H.
  change ("Your job " ++ id ++ " " ++ rest)
    with (String "Y" ("our job " ++ id ++ " " ++ rest)) in H at 1.
  rewrite (strip_not_blank "Y" _ eq_refl) in H.
  replace (pat _) with pat1 in H
    by (rewrite pat_of_init; destruct a as [[|n|n]|]; try reflexivity; discriminate).
  rewrite (search_pat1 id rest Hid) in H.
  destruct H as (w' & H & _). rewrite H. cbn [fst snd jobid set_jobid].
  repeat split. now exists w'.
Qed.

(** X8: To an array job, an answer [Your job-array N rest] with [N] free of
    white space gives the identifier [N], task range included. *)
Theorem start_array_answer (c j q : string) (t : option Z) (i o e : option string)
    (a : Z) (w : World) (id rest : string) :
  (1 < a < 100000)%Z ->
  forallb (fun x => negb (Py.is_space x)) (list_ascii_of_string id) = true ->
  popen_read (submitted w) (qsub_line (GridProcess_init c j q t i o e (Some a)))
  = "Your job-array " ++ id ++ " " ++ rest ->
  snd (start popen_read (GridProcess_init c j q t i o e (Some a), w)) = Returned tt /\
  jobid (fst (fst (start popen_read (GridProcess_init c j q t i o e (Some a), w)))) = id /\
  exists w',
    start popen_read (GridProcess_init c j q t i o e (Some a), w)
    = ((set_jobid id (wrapped (GridProcess_init c j q t i o e (Some a))), w'), Returned tt).
Proof.
  intros Ha Hid Hans.
  pose proof (start_spec popen_read (GridProcess_init c j q t i o e (Some a)) w) as H.
  rewrite Hans in H. cbn [arr GridProcess_init] in H.
  rewrite (arr_ok_in_range a Ha) in H.
  change ("Your job-array " ++ id ++ " " ++ rest)
    with (String "Y" ("our job-array " ++ id ++ " " ++ rest)) in H at 1.
  rewrite (strip_not_blank "Y" _ eq_refl) in H.
  replace (pat _) with pat2 in H
    by (rewrite pat_of_init; destruct a; [lia | reflexivity | reflexivity]).
  rewrite (search_pat2 id rest Hid) in H.
  destruct H as (w' & H & _). rewrite H. cbn [fst snd jobid set_jobid].
  repeat split. now exists w'.
Qed.

(** X9: Whenever [start] returns, the identifier it has recorded is [-1], or
    is made of digits for a job that is not an array job, or is free of white
    space for an array job. *)
Theorem start_jobid_shape (c j q : string) (t : option Z) (i o e : option string)
    (a : option Z) (w : World) (p : GridProcess) (w' : World) :
  start popen_read (GridProcess_init c j q t i o e a, w) = ((p, w'), Returned tt) ->
  jobid p = "-1" \/
  forallb (re.in_class (if Py.truthy (Py.nonzero a) then re.NonSpace else re.Digit))
    (list_ascii_of_string (jobid p)) = true.
Proof.
  intros Hst.
  pose proof (start_spec popen_read (GridProcess_init c j q t i o e a) w) as H.
  destruct (arr_ok _); [|rewrite H in Hst; discriminate].
  destruct (String.eqb _ "").
  - destruct H as (w1 & H & _). rewrite H in Hst. inversion Hst. now left.
  - destruct (re.search _ _) as [id|] eqn:Es; [|rewrite H in Hst; discriminate].
    destruct H as (w1 & H & _). rewrite H in Hst. inversion Hst.
    right. cbn [jobid set_jobid]. rewrite pat_of_init in Es.
    destruct a as [[|n|n]|]; cbn [Py.nonzero Py.truthy].
    + exact (proj1 (search_pat1_inv _ _ Es)).
    + exact (proj1 (search_pat2_inv _ _ Es)).
    + exact (proj1 (search_pat2_inv _ _ Es)).
    + exact (proj1 (search_pat1_inv _ _ Es)).
Qed.

End MoreJobidFacts.

Lemma start_scalar_answer_witness :
  snd (start (answers "Your job 0042 (my job) has been submitted")
         (GridProcess_init "ls" "" "default" None None None None None, World0))
  = Returned tt /\
  jobid (fst (fst (start (answers "Your job 0042 (my job) has been submitted")
                     (GridProcess_init "ls" "" "default" None None None None None, World0))))
  = "0042" /\
  exists w',
    start (answers "Your job 0042 (my job) has been submitted")
      (GridProcess_init "ls" "" "default" None None None None None, World0)
    = ((set_jobid "0042" (wrapped (GridProcess_init "ls" "" "default" None None None None None)),
        w'), Returned tt).
Proof.
  apply (start_scalar_answer (answers "Your job 0042 (my job) has been submitted")
           "ls" "" "default" None None None None None World0
           "0042" "(my job) has been submitted"); reflexivity.
Defined.

Lemma start_array_answer_witness :
  snd (start (answers "Your job-array 67.1-3:1 (array.sh) has been submitted")
         (GridProcess_init "array.sh" "" "default" None None None None (Some 3%Z), World0))
  = Returned tt /\
  jobid (fst (fst (start (answers "Your job-array 67.1-3:1 (array.sh) has been submitted")
                     (GridProcess_init "array.sh" "" "default" None None None None (Some 3%Z),
                      World0))))
  = "67.1-3:1" /\
  exists w',
    start (answers "Your job-array 67.1-3:1 (array.sh) has been submitted")
      (GridProcess_init "array.sh" "" "default" None None None None (Some 3%Z), World0)
    = ((set_jobid "67.1-3:1"
          (wrapped (GridProcess_init "array.sh" "" "default" None None None None (Some 3%Z))),
        w'), Returned tt).
Proof.
  apply (start_array_answer
           (answers "Your job-array 67.1-3:1 (array.sh) has been submitted")
           "array.sh" "" "default" None None None None 3%Z World0
           "67.1-3:1" "(array.sh) has been submitted"); [lia | reflexivity | reflexivity].
Defined.

Lemma start_jobid_shape_witness :
  jobid (GridProcess_init "ls" "31" "default" None None None None None) = "-1" \/
  forallb (re.in_class re.Digit) (list_ascii_of_string "31") = true.
Proof.
  apply (start_jobid_shape (answers "xx Your job 31 (ls) has been submitted")
           "ls" "" "default" None None None None None World0
           (GridProcess_init "ls" "31" "default" None None None None None)
           (mkWorld ["qsub -P 04048 -cwd ls"] [] ["[31] ls"] [])).
  reflexivity.
Defined.

(** ** More on the job batch *)

Section MoreGridFacts.

Variable popen_read : list string -> string -> string.

(** The two ways in which [start] ends for a job that passes the
    assertion of [build]. *)
Lemma start_outcome (self : GridProcess) (w : World) :
  arr_ok (arr self) = true ->
  (exists id w1 msg,
     start popen_read (self, w) = ((set_jobid id (wrapped self), w1), Returned tt) /\
     submitted w1 = (submitted w ++ [qsub_line self])%list /\
     debug_log w1 = (debug_log w ++ [msg])%list) \/
  start popen_read (self, w)
  = ((wrapped self, submit (qsub_line self) w),
     Raised (AttributeError "'NoneType' object has no attribute 'group'")).
Proof.
  intros Hok.
  destruct (string_dec (Py.strip (popen_read (submitted w) (qsub_line self))) "")
    as [Hb|Hb].
  - left. exists "-1". eexists. eexists.
    rewrite (start_returns_world popen_read self w "-1" Hok (or_introl (conj Hb eq_refl))).
    repeat split.
  - destruct (re.search (pat self) (popen_read (submitted w) (qsub_line self)))
      as [id|] eqn:Es.
    + left. exists id. eexists. eexists.
      rewrite (start_returns_world popen_read self w id Hok (or_intror (conj Hb Es))).
      repeat split.
    + right. pose proof (start_spec popen_read self w) as H.
      rewrite Hok, Es in H. apply String.eqb_neq in Hb. now rewrite Hb in H.
Qed.

(** [Grid.run] on jobs that pass the assertion: either every job is
    started, or the loop stops at the first job whose answer cannot be
    parsed and leaves the jobs after it as they were. *)
Lemma Grid_run_outcome (g : list GridProcess) :
  Forall (fun p => arr_ok (arr p) = true) g ->
  forall w g' w' r,
    Grid_run popen_read g w = ((g', w'), r) ->
    match r with
    | Returned _ =>
        submitted w' = (submitted w ++ map qsub_line g)%list /\
        List.length (debug_log w') = List.length (debug_log w) + List.length g /\
        map cmd g' = map (fun p => cmd (wrapped p)) g
    | Raised e =>
        e = AttributeError "'NoneType' object has no attribute 'group'" /\
        exists k, k < List.length g /\
          submitted w' = (submitted w ++ map qsub_line (firstn (S k) g))%list /\
          List.length (debug_log w') = List.length (debug_log w) + k /\
          skipn (S k) g' = skipn (S k) g
    end.
Proof.
  induction 1 as [|p g Hp Hg IH]; intros w g' w' r Hrun.
  - cbn in Hrun. inversion Hrun; subst. cbn. rewrite app_nil_r. auto.
  - cbn [Grid_run] in Hrun.
    destruct (start_outcome p w Hp) as [(id & w1 & msg & Hs & Hsub & Hlog)|Hs];
      rewrite Hs in Hrun.
    + destruct (Grid_run popen_read g w1) as [[g1 w2] r1] eqn:Hrest.
      inversion Hrun; subst. specialize (IH _ _ _ _ Hrest).
      destruct r as [[]|e'].
      * destruct IH as (IH1 & IH2 & IH3). rewrite IH1, IH2, Hsub, Hlog.
        rewrite length_app. cbn [map List.length set_jobid cmd].
        rewrite <- app_assoc. repeat split; [lia | now rewrite IH3].
      * destruct IH as (-> & k & Hk & IH1 & IH2 & IH3).
        split; [reflexivity|]. exists (S k).
        rewrite IH1, IH2, Hsub, Hlog, length_app. cbn [List.length firstn map skipn].
        rewrite <- app_assoc. repeat split; [lia | lia | exact IH3].
    + inversion Hrun; subst. split; [reflexivity|].
      exists 0. cbn. repeat split; lia.
Qed.

Lemma Grid_fill_arr_ok (cmds : list string) (outfiles : list (option string)) :
  Forall (fun p => arr_ok (arr p) = true) (Grid_fill cmds outfiles).
Proof.
  revert outfiles. induction cmds as [|c cmds IH]; intros [|o outfiles];
    cbn [Grid_fill]; constructor; [reflexivity | apply IH].
Qed.

Lemma Grid_init_arr_ok (cmds : list string) (outfiles : list (option string))
    (g : list GridProcess) :
  Grid_init cmds outfiles = Returned g ->
  Forall (fun p => arr_ok (arr p) = true) g.
Proof.
  unfold Grid_init. destruct cmds as [|c0 cmds]; [discriminate|].
  intros H. injection H as <-. exact (Grid_fill_arr_ok (c0 :: cmds) _).
Qed.

(** X10: When constructing and running a batch returns, every job of the batch
    has been submitted once, in the order of the batch, and logged. *)
Theorem Grid_submit_returned (cmds : list string) (outfiles : list (option string))
    (w w' : World) (g' : list GridProcess) :
  Grid_submit popen_read cmds outfiles w = (w', Returned g') ->
  exists g,
    Grid_init cmds outfiles = Returned g /\
    submitted w' = (submitted w ++ map qsub_line g)%list /\
    List.length (debug_log w') = List.length (debug_log w) + List.length g /\
    map cmd g' = map (fun p => cmd (wrapped p)) g.
Proof.
  unfold Grid_submit. destruct (Grid_init cmds outfiles) as [g|e] eqn:Hi; [|discriminate].
  destruct (Grid_run popen_read g w) as [[g1 w1] [[]|e]] eqn:Hr; [|discriminate].
  intros H. inversion H; subst. exists g. split; [reflexivity|].
  exact (Grid_run_outcome g (Grid_init_arr_ok _ _ _ Hi) _ _ _ _ Hr).
Qed.

(** X11: When it raises, either the list of commands is empty and nothing has
    happened, or the answer to one job could not be parsed: the jobs up to
    that one have been submitted, the ones before it logged, and no job
    after it has been submitted. *)
Theorem Grid_submit_raised (cmds : list string) (outfiles : list (option string))
    (w w' : World) (e : exn) :
  Grid_submit popen_read cmds outfiles w = (w', Raised e) ->
  (cmds = [] /\ e = AssertionError "Commands empty!" /\ w' = w) \/
  (e = AttributeError "'NoneType' object has no attribute 'group'" /\
   exists g k,
     Grid_init cmds outfiles = Returned g /\ k < List.length g /\
     submitted w' = (submitted w ++ map qsub_line (firstn (S k) g))%list /\
     List.length (debug_log w') = List.length (debug_log w) + k).
Proof.
  unfold Grid_submit. destruct (Grid_init cmds outfiles) as [g|e0] eqn:Hi.
  - destruct (Grid_run popen_read g w) as [[g1 w1] [[]|e1]] eqn:Hr; [discriminate|].
    intros H. inversion H; subst. right.
    destruct (Grid_run_outcome g (Grid_init_arr_ok _ _ _ Hi) _ _ _ _ Hr)
      as (-> & k & Hk & H1 & H2 & _).
    split; [reflexivity|]. now exists g, k.
  - intros H. inversion H; subst. left.
    unfold Grid_init in Hi. destruct cmds; [|discriminate].
    inversion Hi. auto.
Qed.

(** X12: Without output files, the batch has one job per command, in order,
    and no job has an output file; with at least as many output files as
    commands, the job of the [k]-th command has the [k]-th output file and
    the output files in excess are ignored. *)
Theorem Grid_init_jobs (cmds : list string) (outfiles : list (option string)) :
  cmds <> [] ->
  outfiles = [] \/ List.length cmds <= List.length outfiles ->
  exists g,
    Grid_init cmds outfiles = Returned g /\
    map cmd g = cmds /\
    map outfile g
    = match outfiles with
      | [] => repeat None (List.length cmds)
      | _ => firstn (List.length cmds) outfiles
      end /\
    Forall (fun p => jobid p = "" /\ queue p = "default" /\ threaded p = None /\
                     infile p = None /\ errfile p = None /\ arr p = None /\
                     pat p = pat1) g.
Proof.
  intros Hne Hlen.
  set (outs := match outfiles with [] => repeat None (List.length cmds) | _ => outfiles end).
  assert (Hinit : Grid_init cmds outfiles = Returned (Grid_fill cmds outs)).
  { unfold Grid_init, outs. destruct cmds; [contradiction | reflexivity]. }
  assert (Houts : List.length cmds <= List.length outs).
  { unfold outs. destruct Hlen as [->|Hlen].
    - now rewrite repeat_length.
    - destruct outfiles; [rewrite repeat_length; lia | exact Hlen]. }
  exists (Grid_fill cmds outs). split; [exact Hinit|].
  destruct (Grid_fill_fields cmds outs) as [Hc Ho].
  split; [rewrite Hc; apply firstn_all2; exact Houts|].
  split.
  - rewrite Ho. unfold outs. destruct outfiles; [|reflexivity].
    apply firstn_all2. now rewrite repeat_length.
  - clear. generalize outs. induction cmds as [|c cmds IH]; intros [|o l];
      cbn [Grid_fill]; constructor; [repeat split | apply IH].
Qed.

End MoreGridFacts.

Lemma Grid_submit_returned_witness :
  exists g,
    Grid_init ["a"; "b | c"] [] = Returned g /\
    submitted (mkWorld ["qsub -P 04048 -cwd a"; "qsub -P 04048 -cwd sh -c 'b | c'"]
                 [] ["[-1] a"; "[-1] sh -c 'b | c'"] [])
    = (submitted World0 ++ map qsub_line g)%list /\
    List.length ["[-1] a"; "[-1] sh -c 'b | c'"]
    = List.length (debug_log World0) + List.length g /\
    map cmd [GridProcess_init "a" "-1" "default" None None None None None;
             GridProcess_init "sh -c 'b | c'" "-1" "default" None None None None None]
    = map (fun p => cmd (wrapped p)) g.
Proof.
  apply (Grid_submit_returned (answers "") ["a"; "b | c"] [] World0
           (mkWorld ["qsub -P 04048 -cwd a"; "qsub -P 04048 -cwd sh -c 'b | c'"]
              [] ["[-1] a"; "[-1] sh -c 'b | c'"] [])
           [GridProcess_init "a" "-1" "default" None None None None None;
            GridProcess_init "sh -c 'b | c'" "-1" "default" None None None None None]).
  reflexivity.
Defined.

Lemma Grid_submit_raised_witness :
  (["a"; "b"; "c"] = [] /\
   AttributeError "'NoneType' object has no attribute 'group'"
   = AssertionError "Commands empty!" /\
   mkWorld ["qsub -P 04048 -cwd a"] [] [] [] = World0) \/
  (AttributeError "'NoneType' object has no attribute 'group'"
   = AttributeError "'NoneType' object has no attribute 'group'" /\
   exists g k,
     Grid_init ["a"; "b"; "c"] [] = Returned g /\ k < List.length g /\
     submitted (mkWorld ["qsub -P 04048 -cwd a"] [] [] [])
     = (submitted World0 ++ map qsub_line (firstn (S k) g))%list /\
     List.length (debug_log (mkWorld ["qsub -P 04048 -cwd a"] [] [] []))
     = List.length (debug_log World0) + k).
Proof.
  apply (Grid_submit_raised (answers "qsub: command not found") ["a"; "b"; "c"] []
           World0 (mkWorld ["qsub -P 04048 -cwd a"] [] [] [])).
  reflexivity.
Defined.

Lemma Grid_init_jobs_witness :
  exists g,
    Grid_init ["a"; "b"] [Some "x"; None; Some "z"] = Returned g /\
    map cmd g = ["a"; "b"] /\
    map outfile g = [Some "x"; None] /\
    Forall (fun p => jobid p = "" /\ queue p = "default" /\ threaded p = None /\
                     infile p = None /\ errfile p = None /\ arr p = None /\
                     pat p = pat1) g.
Proof.
  apply (Grid_init_jobs ["a"; "b"] [Some "x"; None; Some "z"]);
    [discriminate | right; cbn; lia].
Defined.

(** ** More on the template expander *)

Section MoreExpandFacts.

Lemma rstrip_append_space (f : ascii -> bool) (s : string) (c : ascii) :
  f c = true -> Py.rstrip_by f (s ++ String c "") = Py.rstrip_by f s.
Proof.
  intros Hc. induction s as [|a s IH]; cbn [append Py.rstrip_by].
  - now rewrite Hc.
  - now rewrite IH.
Qed.

Lemma strip_append_space (s : string) (c : ascii) :
  Py.is_space c = true -> Py.strip (s ++ String c "") = Py.strip s.
Proof. intros H. unfold Py.strip. now rewrite (rstrip_append_space _ _ _ H). Qed.

(** X13: The white space around an input line does not matter, nor does the
    newline that ends a line read from the standard input. *)
Theorem run_job_strips_input (opts : GridOpts) (template : string) (i : nat)
    (filename : string) :
  run_job opts template i (Py.strip filename) = run_job opts template i filename /\
  run_job opts template i (filename ++ String "010"%char "")
  = run_job opts template i filename.
Proof.
  unfold run_job. rewrite strip_idem. split; [reflexivity|].
  now rewrite (strip_append_space filename "010" eq_refl).
Qed.

Lemma run_job_strips_input_witness :
  cmd (run_job (mkGridOpts "default" None) "wc {}" 0 ("  a.txt " ++ String "010"%char ""))
  = "wc a.txt".
Proof.
  rewrite (proj2 (run_job_strips_input (mkGridOpts "default" None) "wc {}" 0 "  a.txt ")).
  rewrite <- (proj1 (run_job_strips_input (mkGridOpts "default" None) "wc {}" 0 "  a.txt ")).
  reflexivity.
Defined.

Lemma absent_by_first_char (c : ascii) (p s : string) :
  Py.contains (String c "") s = false -> Py.contains (String c p) s = false.
Proof.
  intros H. destruct (Py.contains (String c p) s) eqn:E; [|reflexivity].
  apply contains_first_char in E. congruence.
Qed.

(** A text without an opening brace goes through the substitutions of the
    placeholders unchanged. *)
Lemma placeholders_absent (s v1 v2 v3 v4 v5 v6 : string) :
  Py.contains "{" s = false ->
  Py.replace "{#}" v6 (Py.replace "{/_}" v5 (Py.replace "{/.}" v4
    (Py.replace "{/}" v3 (Py.replace "{_}" v2 (Py.replace "{.}" v1 s))))) = s.
Proof.
  intros H.
  rewrite (replace_absent "{.}" v1 s), (replace_absent "{_}" v2 s),
    (replace_absent "{/}" v3 s), (replace_absent "{/.}" v4 s),
    (replace_absent "{/_}" v5 s), (replace_absent "{#}" v6 s);
    try discriminate; try reflexivity; now apply absent_by_first_char.
Qed.

(** X14: With a template and an input line that have no brace, the expansion
    is the template, a space and the input line. *)
Theorem expand_without_braces (template : string) (i : nat) (filename : string) :
  Py.contains "{" template = false ->
  Py.contains "{" filename = false ->
  expand template i filename = template ++ " " ++ filename.
Proof.
  intros Ht Hf. unfold expand, place_input. rewrite Ht.
  destruct (posixpath.split filename) as [prefix basename].
  apply placeholders_absent.
  rewrite !contains_char_append, Ht, Hf. reflexivity.
Qed.

Lemma expand_without_braces_witness :
  expand "wc -l" 4 "a/b.txt" = "wc -l" ++ " " ++ "a/b.txt".
Proof. apply (expand_without_braces "wc -l" 4 "a/b.txt"); reflexivity. Defined.



(** X16: The placeholder for the base name gives what follows the last slash. *)
Theorem expand_basename (i : nat) (d b : string) :
  Py.contains "/" b = false ->
  Py.contains "{" b = false ->
  expand "{/}" i (d ++ "/" ++ b) = b.
Proof.
  intros Hs Hb. unfold expand, place_input, posixpath.split.
  change (d ++ "/" ++ b) with (d ++ String "/" b).
  rewrite (cut_last_append "/" d b Hs).
  destruct (match d ++ "/" with
            | "" => d ++ "/"
            | String _ _ =>
                if posixpath.all_sep (d ++ "/") then d ++ "/"
                else Py.rstrip_by (Ascii.eqb "/") (d ++ "/")
            end) as [|x head];
    cbn [Py.contains Py.startswith Ascii.eqb Bool.eqb andb orb];
    change (Py.replace "{}" (d ++ String "/" b) "{/}") with "{/}";
    change (Py.replace "{.}" (Py.rsplit1_0 "." (d ++ String "/" b)) "{/}") with "{/}";
    match goal with
    | |- context [Py.replace "{_}" ?v "{/}"] =>
        change (Py.replace "{_}" v "{/}") with "{/}"
    end;
    change (Py.replace "{/}" b "{/}") with (b ++ "");
    rewrite append_empty_r;
    rewrite (replace_absent "{/.}"), (replace_absent "{/_}"), (replace_absent "{#}");
    try discriminate; try reflexivity; now apply absent_by_first_char.
Qed.

Lemma expand_basename_witness :
  expand "{/}" 0 ("/data/run1" ++ "/" ++ "reads.fq") = "reads.fq".
Proof. apply (expand_basename 0 "/data/run1" "reads.fq"); reflexivity. Defined.

End MoreExpandFacts.

(** ** More on redirection *)

Section MoreRedirectFacts.

(** X17: The command is cut at the first [>] only: what follows it, further
    [>] included, is the output file.  With an appending redirection the
    output file therefore starts with [>]. *)
Theorem split_redirect_first (a b : string) :
  Py.contains ">" a = false ->
  split_redirect (a ++ ">" ++ b) = (Py.strip a, Some (Py.strip b)) /\
  forall c, b = ">" ++ c ->
    exists r, snd (split_redirect (a ++ ">" ++ b)) = Some (">" ++ r).
Proof.
  intros Ha.
  assert (H : split_redirect (a ++ ">" ++ b) = (Py.strip a, Some (Py.strip b))).
  { unfold split_redirect.
    change (a ++ ">" ++ b) with (a ++ String ">" b).
    rewrite contains_char_append, Ha. cbn [orb Py.contains Py.startswith Ascii.eqb Bool.eqb andb].
    rewrite (cut_first_append ">" a b Ha). now rewrite strip_idem. }
  split; [exact H|].
  intros c ->. rewrite H. cbn [snd]. unfold Py.strip.
  change (">" ++ c) with (String ">" c). cbn [Py.rstrip_by].
  destruct (Py.rstrip_by Py.is_space c) as [|x r];
    change (Py.is_space ">") with false; cbn [Py.lstrip_by];
    change (Py.is_space ">") with false; cbv iota;
    [now exists "" | now exists (String x r)].
Qed.

Lemma split_redirect_first_witness :
  split_redirect ("sort a " ++ ">" ++ "> all.txt") = ("sort a", Some "> all.txt").
Proof.
  rewrite (proj1 (split_redirect_first "sort a " "> all.txt" eq_refl)). reflexivity.
Defined.

(** X18: The job that [run] constructs: its command has no [>] and no white
    space around it, its output file has no white space around it and is set
    exactly when the expanded command has a [>]; queue and threads are the
    options, and nothing else is set. *)
Theorem run_job_invariants (opts : GridOpts) (template : string) (i : nat)
    (filename : string) :
  let p := run_job opts template i filename in
  Py.contains ">" (cmd p) = false /\
  Py.strip (cmd p) = cmd p /\
  (forall o, outfile p = Some o -> Py.strip o = o) /\
  (outfile p = None <-> Py.contains ">" (expand template i (Py.strip filename)) = false) /\
  jobid p = "" /\ queue p = opt_queue opts /\ threaded p = opt_threaded opts /\
  infile p = None /\ errfile p = None /\ arr p = None /\ pat p = pat1.
Proof.
  cbv zeta. unfold run_job, split_redirect.
  destruct (Py.contains ">" (expand template i (Py.strip filename))) eqn:E.
  - destruct (proj1 (contains_char_cut _ _) E) as (a & b & Hcut). rewrite Hcut.
    destruct (cut_first_spec _ _ _ _ Hcut) as [_ Hno].
    cbn [cmd outfile jobid queue threaded infile errfile arr pat GridProcess_init].
    rewrite strip_idem.
    split; [now apply strip_contains_char|].
    split; [apply strip_idem|].
    split; [intros o H; injection H as <-; apply strip_idem|].
    repeat split; discriminate.
  - cbn [cmd outfile jobid queue threaded infile errfile arr pat GridProcess_init].
    split; [now apply strip_contains_char|].
    split; [apply strip_idem|].
    repeat split; discriminate.
Qed.

End MoreRedirectFacts.

(** ** More on the action [run] *)

Section MoreRunFacts.

Variable popen_read : list string -> string -> string.

Lemma cut_args_append (sep : string) (before after : list string) :
  ~ In sep before ->
  cut_args sep (before ++ sep :: after) = Some (before, after).
Proof.
  induction before as [|a before IH]; intros Hn; cbn [app cut_args].
  - now rewrite String.eqb_refl.
  - destruct (String.eqb_spec a sep) as [->|Hne]; [destruct Hn; now left|].
    rewrite IH; [reflexivity|]. intros H. apply Hn. now right.
Qed.

Lemma cut_args_none (sep : string) (args : list string) :
  ~ In sep args -> cut_args sep args = None.
Proof.
  induction args as [|a args IH]; intros Hn; cbn [cut_args]; [reflexivity|].
  destruct (String.eqb_spec a sep) as [->|Hne]; [destruct Hn; now left|].
  rewrite IH; [reflexivity|]. intros H. apply Hn. now right.
Qed.

Lemma start_written (self : GridProcess) (w : World) :
  written (snd (fst (start popen_read (self, w)))) = written w /\
  backed_up (snd (fst (start popen_read (self, w))))
  = (backed_up w
     ++ match snd (start popen_read (self, w)) with
        | Returned _ => opt_list (Py.nonempty (outfile self))
                        ++ opt_list (Py.nonempty (errfile self))
        | Raised _ => []
        end)%list.
Proof.
  destruct (arr_ok (arr self)) eqn:Hok.
  - destruct (string_dec (Py.strip (popen_read (submitted w) (qsub_line self))) "")
      as [Hb|Hb].
    + rewrite (start_returns_world popen_read self w "-1" Hok (or_introl (conj Hb eq_refl))).
      split; reflexivity.
    + destruct (re.search (pat self) (popen_read (submitted w) (qsub_line self)))
        as [id|] eqn:Es.
      * rewrite (start_returns_world popen_read self w id Hok (or_intror (conj Hb Es))).
        split; reflexivity.
      * pose proof (start_spec popen_read self w) as H.
        rewrite Hok, Es in H. apply String.eqb_neq in Hb. rewrite Hb in H.
        rewrite H. cbn. now rewrite app_nil_r.
  - pose proof (start_spec popen_read self w) as H. rewrite Hok in H.
    rewrite H. cbn. now rewrite app_nil_r.
Qed.

(** X19: The template is what precedes the first [:::], joined by spaces, and
    the input lines are all the arguments after it (the standard input is
    not read).  The lines of the jobs are submitted in the order of the
    input lines, each with its index: all of them when [run] returns, and
    up to the first answer that cannot be parsed when it raises. *)
Theorem run_submits_in_order (opts : GridOpts) (targs filenames stdin : list string)
    (w : World) :
  ~ In ":::" targs -> filenames <> [] ->
  exists k, k <= List.length filenames /\
    submitted (fst (run popen_read opts (targs ++ ":::" :: filenames) stdin w))
    = (submitted w
       ++ map qsub_line (firstn k (run_jobs opts (String.concat " " targs) 0 filenames)))%list /\
    (snd (run popen_read opts (targs ++ ":::" :: filenames) stdin w) = Returned tt ->
     k = List.length filenames).
Proof.
  intros Hsep Hne. unfold run. rewrite (cut_args_append _ _ _ Hsep).
  destruct filenames as [|f fs]; [contradiction|].
  apply run_loop_submitted.
Qed.

(** X20: With [:::] and nothing after it, [run] behaves as for one empty input
    line: it submits exactly one job, whatever the standard input holds. *)
Theorem run_nothing_after_separator (opts : GridOpts) (targs stdin : list string)
    (w : World) :
  ~ In ":::" targs ->
  run popen_read opts (targs ++ [":::"]) stdin w
  = run popen_read opts (targs ++ [":::"; ""]) [] w /\
  submitted (fst (run popen_read opts (targs ++ [":::"]) stdin w))
  = (submitted w ++ [qsub_line (run_job opts (String.concat " " targs) 0 "")])%list.
Proof.
  intros Hsep. unfold run.
  rewrite (cut_args_append _ _ [] Hsep), (cut_args_append _ _ [""] Hsep).
  split; [reflexivity|].
  cbn [run_loop].
  pose proof (start_submitted popen_read (run_job opts (String.concat " " targs) 0 "") w) as H.
  rewrite run_job_arr in H. cbn [arr_ok Py.nonzero] in H.
  destruct (start popen_read (run_job opts (String.concat " " targs) 0 "", w))
    as [[p' w'] [[]|e]]; exact H.
Qed.

(** X21: Without [:::] the whole command line, joined by spaces, is the
    template and the input lines are the lines of the standard input: the
    lines of their jobs are submitted in order, each with its index, all of
    them when [run] returns and up to the first answer that cannot be parsed
    otherwise; when the standard input is empty, nothing is submitted and
    [run] returns. *)
Theorem run_without_separator (opts : GridOpts) (args stdin : list string) (w : World) :
  ~ In ":::" args ->
  (exists k, k <= List.length stdin /\
     submitted (fst (run popen_read opts args stdin w))
     = (submitted w
        ++ map qsub_line (firstn k (run_jobs opts (String.concat " " args) 0 stdin)))%list /\
     (snd (run popen_read opts args stdin w) = Returned tt -> k = List.length stdin)) /\
  run popen_read opts args stdin w
  = run_loop popen_read opts (String.concat " " args) 0 stdin w /\
  run popen_read opts args [] w = (w, Returned tt).
Proof.
  intros Hsep. unfold run. rewrite (cut_args_none _ _ Hsep).
  split; [apply run_loop_submitted | split; reflexivity].
Qed.

Lemma run_loop_failures (opts : GridOpts) (template : string)
    (filenames : list string) :
  forall i w,
    written (fst (run_loop popen_read opts template i filenames w)) = written w /\
    forall e, snd (run_loop popen_read opts template i filenames w) = Raised e ->
      e = AttributeError "'NoneType' object has no attribute 'group'".
Proof.
  induction filenames as [|f fs IH]; intros i w.
  - cbn. split; [reflexivity | discriminate].
  - cbn [run_loop].
    pose proof (start_written (run_job opts template i f) w) as [Hw _].
    pose proof (start_outcome popen_read (run_job opts template i f) w) as Ho.
    rewrite run_job_arr in Ho. specialize (Ho eq_refl).
    destruct (start popen_read (run_job opts template i f, w)) as [[p' w'] [[]|e]];
      cbn [fst snd] in Hw.
    + destruct (IH (S i) w') as [IH1 IH2]. rewrite IH1. auto.
    + cbn [fst snd]. split; [exact Hw|].
      intros e' H. injection H as <-.
      destruct Ho as [(id & w1 & msg & Hs & _)|Hs]; inversion Hs. reflexivity.
Qed.

(** X22: [run] never writes a file, whether it returns or raises, and it
    raises nothing but the error of an answer that cannot be parsed. *)
Theorem run_failures (opts : GridOpts) (args stdin : list string) (w : World) :
  written (fst (run popen_read opts args stdin w)) = written w /\
  forall e,
    snd (run popen_read opts args stdin w) = Raised e ->
    e = AttributeError "'NoneType' object has no attribute 'group'".
Proof.
  unfold run.
  destruct (cut_args ":::" args) as [[before after]|].
  - exact (run_loop_failures opts (String.concat " " before)
             (match after with [] => [""] | _ :: _ => after end) 0 w).
  - exact (run_loop_failures opts (String.concat " " args) stdin 0 w).
Qed.

End MoreRunFacts.

Lemma run_job_invariants_witness :
  outfile (run_job (mkGridOpts "default" None) "zcat {} > {.}" 0 "x.gz") <> None.
Proof.
  intros H.
  apply (proj1 (proj1 (proj2 (proj2 (proj2
           (run_job_invariants (mkGridOpts "default" None) "zcat {} > {.}" 0 "x.gz"))))))
    in H.
  discriminate.
Defined.

Lemma run_submits_in_order_witness :
  exists k, k <= 2 /\
    submitted (fst (run (answers "Your job 3 (wc) has been submitted")
                      (mkGridOpts "default" None)
                      (["wc"; "{}"] ++ ":::" :: ["a"; ":::"]) ["ignored"] World0))
    = (submitted World0
       ++ map qsub_line (firstn k (run_jobs (mkGridOpts "default" None)
                                     (String.concat " " ["wc"; "{}"]) 0 ["a"; ":::"])))%list /\
    (snd (run (answers "Your job 3 (wc) has been submitted")
            (mkGridOpts "default" None)
            (["wc"; "{}"] ++ ":::" :: ["a"; ":::"]) ["ignored"] World0) = Returned tt ->
     k = 2).
Proof.
  apply (run_submits_in_order (answers "Your job 3 (wc) has been submitted")
           (mkGridOpts "default" None) ["wc"; "{}"] ["a"; ":::"] ["ignored"] World0).
  - intros [H|[H|[]]]; discriminate.
  - discriminate.
Defined.

Lemma run_nothing_after_separator_witness :
  submitted (fst (run (answers "") (mkGridOpts "default" None)
                    (["date"; "-u"] ++ [":::"]) ["ignored"] World0))
  = (submitted World0
     ++ [qsub_line (run_job (mkGridOpts "default" None)
                      (String.concat " " ["date"; "-u"]) 0 "")])%list.
Proof.
  apply (proj2 (run_nothing_after_separator (answers "") (mkGridOpts "default" None)
                  ["date"; "-u"] ["ignored"] World0
                  ltac:(intros [H|[H|[]]]; discriminate))).
Defined.

Lemma run_without_separator_witness :
  submitted (fst (run (answers "Your job 3 (wc) has been submitted")
                    (mkGridOpts "default" None) ["wc"; "-l"; "{}"; "{#}"]
                    ["a.txt" ++ String "010"%char ""; "b.txt" ++ String "010"%char ""]
                    World0))
  = ["qsub -P 04048 -cwd wc -l a.txt 0"; "qsub -P 04048 -cwd wc -l b.txt 1"] /\
  run (answers "") (mkGridOpts "default" None) ["ls"; "-l"] [] World0
  = (World0, Returned tt).
Proof.
  split.
  - destruct (proj1 (run_without_separator (answers "Your job 3 (wc) has been submitted")
                       (mkGridOpts "default" None) ["wc"; "-l"; "{}"; "{#}"]
                       ["a.txt" ++ String "010"%char ""; "b.txt" ++ String "010"%char ""]
                       World0 ltac:(intros [H|[H|[H|[H|[]]]]]; discriminate)))
      as (k & _ & Hsub & Hret).
    rewrite Hsub, (Hret eq_refl). reflexivity.
  - apply (proj2 (proj2 (run_without_separator (answers "") (mkGridOpts "default" None)
                  ["ls"; "-l"] [] World0 ltac:(intros [H|[H|[]]]; discriminate)))).
Defined.

Lemma run_failures_witness :
  written (fst (run (answers "Your job 4 (ls) has been submitted")
                  (mkGridOpts "default" None) ["ls"; ":::"; "a"; "b"] []
                  (mkWorld [] [] [] [("array.sh", "old")])))
  = [("array.sh", "old")] /\
  written (fst (run (answers "denied") (mkGridOpts "default" None)
                  ["ls"; ":::"; "a"; "b"] [] World0)) = [] /\
  AttributeError "'NoneType' object has no attribute 'group'"
  = AttributeError "'NoneType' object has no attribute 'group'".
Proof.
  split; [|split].
  - apply (proj1 (run_failures (answers "Your job 4 (ls) has been submitted")
                    (mkGridOpts "default" None) ["ls"; ":::"; "a"; "b"] []
                    (mkWorld [] [] [] [("array.sh", "old")]))).
  - apply (proj1 (run_failures (answers "denied") (mkGridOpts "default" None)
                    ["ls"; ":::"; "a"; "b"] [] World0)).
  - apply (proj2 (run_failures (answers "denied") (mkGridOpts "default" None)
                    ["ls"; ":::"; "a"; "b"] [] World0)).
    reflexivity.
Defined.

(** ** The action [array] *)

Section ArrayFacts.

Variable popen_read : list string -> string -> string.

(** The job that [array] constructs for a list of [n] commands. *)
Lemma array_unfold (opts : GridOpts) (cmds : string) (lines : list string) (w : World) :
  array popen_read opts cmds lines w
  = let p := GridProcess_init "array.sh" "" (opt_queue opts) (opt_threaded opts) None
               (Some "\$TASK_ID.out") (Some "\$TASK_ID.out")
               (Some (Z.of_nat (List.length lines))) in
    let w0 := mkWorld (submitted w) (backed_up w) (debug_log w)
                (written w ++ [("array.sh", arraysh cmds)]) in
    (snd (fst (start popen_read (p, w0))),
     match snd (start popen_read (p, w0)) with
     | Returned _ => Returned (fst (fst (start popen_read (p, w0))))
     | Raised e => Raised e
     end).
Proof.
  unfold array, bind, write_file, modify. cbv zeta.
  destruct (start popen_read _) as [[p' w'] r]. reflexivity.
Qed.

(** X23: With a list of one command, or of 100000 commands or more, [array]
    writes the wrapper script and then fails on the assertion of [build]:
    nothing is submitted, backed up or logged. *)
Theorem array_out_of_range (opts : GridOpts) (cmds : string) (lines : list string)
    (w : World) :
  List.length lines = 1 \/ (100000 <= Z.of_nat (List.length lines))%Z ->
  array popen_read opts cmds lines w
  = (mkWorld (submitted w) (backed_up w) (debug_log w)
       (written w ++ [("array.sh", arraysh cmds)]),
     Raised (AssertionError "")).
Proof.
  intros Hn. rewrite array_unfold. cbv zeta.
  assert (Hbad : arr_ok (Some (Z.of_nat (List.length lines))) = false).
  { unfold arr_ok. destruct (Z.of_nat (List.length lines)) as [|n|n] eqn:E; try lia.
    cbn [Py.nonzero]. apply andb_false_iff.
    destruct Hn as [Hn|Hn]; [left | right]; apply Z.ltb_ge; lia. }
  pose proof (start_spec popen_read
    (GridProcess_init "array.sh" "" (opt_queue opts) (opt_threaded opts) None
       (Some "\$TASK_ID.out") (Some "\$TASK_ID.out") (Some (Z.of_nat (List.length lines))))
    (mkWorld (submitted w) (backed_up w) (debug_log w)
       (written w ++ [("array.sh", arraysh cmds)]))) as H.
  cbn [arr GridProcess_init] in H.
  rewrite Hbad in H. now rewrite H.
Qed.

(** X24: With a list of more than one and fewer than 100000 commands, [array]
    writes the wrapper script, then submits one line that asks for the tasks
    1 to the number of commands and for the combined output of each task in a
    file named after the task. *)
Theorem array_in_range (opts : GridOpts) (cmds : string) (lines : list string)
    (w : World) :
  (1 < Z.of_nat (List.length lines) < 100000)%Z ->
  written (fst (array popen_read opts cmds lines w))
  = (written w ++ [("array.sh", arraysh cmds)])%list /\
  submitted (fst (array popen_read opts cmds lines w))
  = (submitted w ++
     [("qsub -P 04048 -cwd"
       ++ (if String.eqb (opt_queue opts) "default" then "" else " -l " ++ opt_queue opts)
       ++ match Py.nonzero (opt_threaded opts) with
          | Some t => " -pe threaded " ++ Py.str t
          | None => ""
          end
       ++ " -t 1-" ++ Py.str (Z.of_nat (List.length lines))
       ++ " -j y -o \$TASK_ID.out array.sh")%string])%list.
Proof.
  intros Hn. rewrite array_unfold. cbv zeta. cbn [fst].
  set (p := GridProcess_init _ _ _ _ _ _ _ _).
  set (w0 := mkWorld _ _ _ _).
  split.
  - now rewrite (proj1 (start_written popen_read p w0)).
  - rewrite (start_submitted popen_read p w0).
    assert (Hok : arr_ok (arr p) = true) by (apply arr_ok_in_range; exact Hn).
    rewrite Hok. cbn [submitted w0]. f_equal. f_equal.
    unfold qsub_line, qsub_flags, clauses, wrapped, p.
    cbn [cmd queue threaded infile outfile errfile arr GridProcess_init].
    change (shell_command "array.sh") with false. cbv iota.
    cbn [cmd GridProcess_init Py.nonempty Py.truthy Py.eq_opt andb opt_list map].
    change (String.eqb "\$TASK_ID.out" "\$TASK_ID.out") with true. cbv iota.
    assert (Hnz : Py.nonzero (Some (Z.of_nat (List.length lines)))
                  = Some (Z.of_nat (List.length lines))).
    { destruct (Z.of_nat (List.length lines)) eqn:E; try reflexivity. lia. }
    rewrite Hnz.
    destruct (String.eqb (opt_queue opts) "default"), (Py.nonzero (opt_threaded opts));
      cbn [opt_list map app String.concat render];
      repeat (progress cbn [append] || rewrite append_assoc); reflexivity.
Qed.

End ArrayFacts.

Lemma array_out_of_range_witness :
  array (answers "Your job-array 1.1-1:1 (array.sh) has been submitted")
    (mkGridOpts "default" None) "one.list" ["echo a"] World0
  = (mkWorld [] [] [] [("array.sh", arraysh "one.list")], Raised (AssertionError "")).
Proof.
  apply (array_out_of_range (answers "Your job-array 1.1-1:1 (array.sh) has been submitted")
           (mkGridOpts "default" None) "one.list" ["echo a"] World0).
  left. reflexivity.
Defined.

Lemma array_in_range_witness :
  submitted (fst (array (answers "Your job-array 9.1-2:1 (array.sh) has been submitted")
                    (mkGridOpts "himem" (Some 4%Z)) "two.list" ["echo a"; "echo b"] World0))
  = ["qsub -P 04048 -cwd -l himem -pe threaded 4 -t 1-2 -j y -o \$TASK_ID.out array.sh"].
Proof.
  rewrite (proj2 (array_in_range
                    (answers "Your job-array 9.1-2:1 (array.sh) has been submitted")
                    (mkGridOpts "himem" (Some 4%Z)) "two.list" ["echo a"; "echo b"] World0
                    ltac:(cbn; lia))).
  reflexivity.
Defined.

(** ** The text of a job *)

Section StrFacts.

Lemma split_no_sep (sep : ascii) (s : string) :
  Py.contains (String sep "") s = false -> Py.split sep s = [s].
Proof.
  induction s as [|c s IH]; [reflexivity|].
  cbn [Py.contains Py.startswith Py.split]. rewrite andb_true_r.
  intros H. apply orb_false_iff in H as [Hc Hs].
  rewrite Ascii.eqb_sym, Hc. now rewrite (IH Hs).
Qed.

Lemma split_append (sep : ascii) (a rest : string) :
  Py.contains (String sep "") a = false ->
  Py.split sep (a ++ String sep rest) = a :: Py.split sep rest.
Proof.
  induction a as [|c a IH]; cbn [append Py.split Py.contains Py.startswith].
  - intros _. now rewrite Ascii.eqb_refl.
  - rewrite andb_true_r. intros H. apply orb_false_iff in H as [Hc Ha].
    rewrite Ascii.eqb_sym, Hc. now rewrite (IH Ha).
Qed.

Lemma split_concat (sep : ascii) (l : list string) :
  l <> [] ->
  Forall (fun s => Py.contains (String sep "") s = false) l ->
  Py.split sep (String.concat (String sep "") l) = l.
Proof.
  intros Hne Hall. induction Hall as [|x l Hx Hl IH]; [contradiction|].
  destruct l as [|y l].
  - cbn [String.concat]. now apply split_no_sep.
  - cbn [String.concat] in *.
    change (x ++ String sep "" ++ ?r) with (x ++ String sep r).
    rewrite (split_append sep x _ Hx). f_equal. apply IH. discriminate.
Qed.

(** X25: The text of a job is made of its identifier, its command and its
    output file, those that are not empty, with tabs between them: when no
    field has a tab and the command is not empty, splitting the text at the
    tabs gives these fields back. *)
Theorem GridProcess_str_fields (self : GridProcess) :
  cmd self <> "" ->
  Py.contains (String "009"%char "") (jobid self) = false ->
  Py.contains (String "009"%char "") (cmd self) = false ->
  (forall o, outfile self = Some o -> Py.contains (String "009"%char "") o = false) ->
  Py.split "009"%char (GridProcess_str self)
  = ((if String.eqb (jobid self) "" then [] else [jobid self])
     ++ [cmd self]
     ++ match outfile self with
        | None | Some "" => []
        | Some o => [o]
        end)%list.
Proof.
  intros Hc Hj Hcmd Ho. unfold GridProcess_str.
  assert (E : (opt_list_str (Py.nonempty (Some (jobid self)))
               ++ opt_list_str (Py.nonempty (Some (cmd self)))
               ++ opt_list_str (Py.nonempty (outfile self)))%list
              = ((if String.eqb (jobid self) "" then [] else [jobid self])
                 ++ [cmd self]
                 ++ match outfile self with
                    | None | Some "" => []
                    | Some o => [o]
                    end)%list).
  { destruct (jobid self) as [|a j], (cmd self) as [|b c]; try contradiction;
      destruct (outfile self) as [[|x o]|]; reflexivity. }
  rewrite E. apply split_concat.
  - destruct (String.eqb (jobid self) ""); discriminate.
  - apply Forall_app. split; [destruct (String.eqb (jobid self) ""); auto|].
    constructor; [exact Hcmd|].
    destruct (outfile self) as [[|x o]|]; auto.
Qed.

End StrFacts.

Lemma GridProcess_str_fields_witness :
  Py.split "009"%char
    (GridProcess_str (GridProcess_init "ls -l" "12" "default" None None (Some "out") None None))
  = ["12"; "ls -l"; "out"].
Proof.
  apply (GridProcess_str_fields
           (GridProcess_init "ls -l" "12" "default" None None (Some "out") None None));
    [discriminate | reflexivity | reflexivity |].
  intros o H. injection H as <-. reflexivity.
Defined.
